(** * Seoul temperature dashboards: same-day historical comparison

    A shallow embedding of the statistical core of the two dashboards
    [pages/00_gemini버전.py] and [pages/01_claude버전.py]:

    - the same month/day filter, [get_historical_stats] and
      [calculate_percentile];
    - the seven-band classifier [get_temperature_description];
    - the exam-day loop that builds [suneung_data];
    - the descending minimum rank used by the first dashboard;
    - the two literal exam-date calendars.

    Numbers.  A pandas cell of a temperature column is either a decimal
    number or the missing-value marker; it is modelled as [option Q].  The
    results of arithmetic are modelled by [float]: a rational, an infinity
    or NaN, with the comparison and division rules of IEEE 754 (every
    comparison with NaN is false, [0/0] is NaN, [a/0] is an infinity).
    Rounding is not modelled: finite results are exact rationals and are
    compared with [==].  The general properties are chosen so that they
    survive binary64 rounding: they rest on counts, on comparisons between
    values of the table and on the order of the quotient
    [count / total * 100], never on the exact value of a mean. *)

From Stdlib Require Import List ZArith QArith Qminmax Bool String Ascii.
From Stdlib Require Import Lia Lqa Sorted Permutation DecimalString.
From Stdlib Require PrimFloat Uint63.
Import ListNotations.

Open Scope Q_scope.

(** ** Floating-point values without rounding *)

Module PyFloat.

Inductive float : Type :=
| Fin (q : Q)
| Inf (negative : bool)
| NaN.

(** Strict comparison on rationals, as a boolean. *)
Definition Qlt_bool (x y : Q) : bool :=
  match x ?= y with
  | Lt => true
  | _ => false
  end.

(** [a < b]; false as soon as one side is NaN. *)
Definition lt (a b : float) : bool :=
  match a, b with
  | Fin x, Fin y => Qlt_bool x y
  | Fin _, Inf neg => negb neg
  | Inf neg, Fin _ => neg
  | Inf n1, Inf n2 => n1 && negb n2
  | _, _ => false
  end.

(** [a <= b]; false as soon as one side is NaN. *)
Definition le (a b : float) : bool :=
  match a, b with
  | Fin x, Fin y => Qle_bool x y
  | Fin _, Inf neg => negb neg
  | Inf neg, Fin _ => neg
  | Inf n1, Inf n2 => n1 || negb n2
  | _, _ => false
  end.

(** [a > b] is [b < a]. *)
Definition gt (a b : float) : bool := lt b a.

Definition mul (a b : float) : float :=
  match a, b with
  | Fin x, Fin y => Fin (x * y)
  | Fin x, Inf neg | Inf neg, Fin x =>
      if Qeq_bool x 0 then NaN else Inf (xorb neg (Qlt_bool x 0))
  | Inf n1, Inf n2 => Inf (xorb n1 n2)
  | _, _ => NaN
  end.

Definition sub (a b : float) : float :=
  match a, b with
  | Fin x, Fin y => Fin (x - y)
  | Fin _, Inf neg => Inf (negb neg)
  | Inf neg, Fin _ => Inf neg
  | Inf n1, Inf n2 => if Bool.eqb n1 n2 then NaN else Inf n1
  | _, _ => NaN
  end.

(** True division of two non-negative integers (a count by a length), as
    numpy does it: no exception, [0/0] is NaN and [a/0] is [+inf]. *)
Definition true_divide (a b : nat) : float :=
  match b with
  | O => match a with O => NaN | S _ => Inf false end
  | S _ => Fin (inject_Z (Z.of_nat a) / inject_Z (Z.of_nat b))
  end.

(** Division of a float sum by an integer count. *)
Definition true_divide_Q (a : Q) (b : nat) : float :=
  match b with
  | O => if Qeq_bool a 0 then NaN else Inf (Qlt_bool a 0)
  | S _ => Fin (a / inject_Z (Z.of_nat b))
  end.

Definition of_nat (n : nat) : float := Fin (inject_Z (Z.of_nat n)).

(** A cell of a numeric column: [None] is the missing-value marker. *)
Definition cell : Type := option Q.

Definition of_cell (c : cell) : float :=
  match c with
  | Some q => Fin q
  | None => NaN
  end.

End PyFloat.

Import PyFloat.

(** ** The loaded table *)

Module Frame.

(** A parsed date (the [날짜] column never holds a missing date after
    [load_data], which drops such rows). *)
Record Timestamp : Type := mkTimestamp {
  year : Z;
  month : Z;
  day : Z
}.

Definition Timestamp_eqb (a b : Timestamp) : bool :=
  (year a =? year b)%Z && (month a =? month b)%Z && (day a =? day b)%Z.

(** One row of the table: 날짜, 지점, 평균기온, 최저기온, 최고기온.  The derived
    columns 월, 일 and 년 are the month, day and year of the date. *)
Record Row : Type := mkRow {
  date : Timestamp;
  station : Z;
  avg_temp : cell;
  min_temp : cell;
  max_temp : cell
}.

Definition DataFrame : Type := list Row.

(** The three temperature columns a query can name. *)
Inductive temp_type : Type :=
| AvgTemp   (* 평균기온 *)
| MinTemp   (* 최저기온 *)
| MaxTemp.  (* 최고기온 *)

Definition column (t : temp_type) (r : Row) : cell :=
  match t with
  | AvgTemp => avg_temp r
  | MinTemp => min_temp r
  | MaxTemp => max_temp r
  end.

(** [Series.dropna()]: the values that are not missing, in order. *)
Fixpoint dropna (s : list cell) : list Q :=
  match s with
  | [] => []
  | Some q :: rest => q :: dropna rest
  | None :: rest => dropna rest
  end.

(** [(temps < temp_value).sum()]. *)
Definition count_lt (temps : list Q) (temp_value : float) : nat :=
  List.length (filter (fun t => lt (Fin t) temp_value) temps).

End Frame.

Import Frame.

(** ** Series reductions used by the statistics *)

Module Series.

Definition sum (xs : list Q) : Q := fold_right Qplus 0 xs.

(** [Series.mean()]: missing values are skipped; NaN when nothing is left.
    The program adds and divides in binary64, so its mean is this exact
    quotient up to rounding (the mean of 0.7, 0.7, 0.7 is computed as
    0.6999999999999998).  For that reason no general property below
    compares a mean, or a deviation from it, with the values it averages:
    they use the mean only for being present, finite or NaN.  The two
    concrete examples of a deviation's sign (-18.2 and +3) are far outside
    the rounding error. *)
Definition mean (s : list cell) : float :=
  let xs := dropna s in
  true_divide_Q (sum xs) (List.length xs).

(** The radicand of [Series.std()]: the sample variance (divisor [n - 1])
    of the values that are not missing, NaN when fewer than two are left.
    The standard deviation itself is its square root, which is not a
    rational; the statistics record keeps the radicand. *)
Definition var (s : list cell) : float :=
  let xs := dropna s in
  match mean s with
  | Fin m =>
      true_divide_Q (sum (map (fun x => (x - m) * (x - m)) xs))
                    (List.length xs - 1)
  | other => other
  end.

(** [Series.max()] and [Series.min()]: missing values are skipped. *)
Definition max (s : list cell) : float :=
  match dropna s with
  | [] => NaN
  | x :: rest => Fin (fold_left Qmax rest x)
  end.

Definition min (s : list cell) : float :=
  match dropna s with
  | [] => NaN
  | x :: rest => Fin (fold_left Qmin rest x)
  end.

(** Minimum and maximum of the (never missing) year column. *)
Definition min_year (ys : list Z) : Z :=
  match ys with
  | [] => 0%Z
  | y :: rest => fold_left Z.min rest y
  end.

Definition max_year (ys : list Z) : Z :=
  match ys with
  | [] => 0%Z
  | y :: rest => fold_left Z.max rest y
  end.

(** [sort_values('년')]: rows by ascending year, by insertion. *)
Fixpoint insert_by_year (r : Row) (rs : list Row) : list Row :=
  match rs with
  | [] => [r]
  | x :: rest =>
      if (year (date r) <? year (date x))%Z then r :: x :: rest
      else x :: insert_by_year r rest
  end.

Definition sort_by_year (rs : list Row) : list Row :=
  fold_right insert_by_year [] (rev rs).

End Series.

(** Decimal rendering of an integer, as an f-string does it. *)
Definition str_of_Z (z : Z) : string := NilZero.string_of_int (Z.to_int z).

(** ** Parsing the calendar's date strings *)

Module Dates.

Definition digit (c : ascii) : option Z :=
  let n := nat_of_ascii c in
  if ((48 <=? n) && (n <=? 57))%nat then Some (Z.of_nat (n - 48)) else None.

Fixpoint number (cs : list ascii) (acc : Z) : option Z :=
  match cs with
  | [] => Some acc
  | c :: rest =>
      match digit c with
      | Some d => number rest (10 * acc + d)%Z
      | None => None
      end
  end.

Definition is_leap (y : Z) : bool :=
  ((y mod 4 =? 0) && (negb (y mod 100 =? 0) || (y mod 400 =? 0)))%Z.

Definition days_in_month (y m : Z) : Z :=
  if (m =? 2)%Z then (if is_leap y then 29 else 28)%Z
  else if ((m =? 4) || (m =? 6) || (m =? 9) || (m =? 11))%Z then 30%Z
  else 31%Z.

(** [pd.to_datetime] on a [YYYY-MM-DD] string; [None] stands for the
    exception raised on a string that is not such a date. *)
Definition to_datetime (s : string) : option Timestamp :=
  match list_ascii_of_string s with
  | [y1; y2; y3; y4; sep1; m1; m2; sep2; d1; d2] =>
      if (Ascii.eqb sep1 "-" && Ascii.eqb sep2 "-")%char then
        match number [y1; y2; y3; y4] 0, number [m1; m2] 0,
              number [d1; d2] 0 with
        | Some y, Some m, Some d =>
            if ((1 <=? m) && (m <=? 12) && (1 <=? d)
                && (d <=? days_in_month y m))%Z
            then Some (mkTimestamp y m d)
            else None
        | _, _, _ => None
        end
      else None
  | _ => None
  end.

End Dates.

Import Dates.

(** A calendar literal: a dictionary from year label to date string, kept
    as the list of its items in insertion order. *)
Definition Calendar : Type := list (Z * string).

(** Dictionary lookup by key. *)
Fixpoint lookup (cal : Calendar) (key : Z) : option string :=
  match cal with
  | [] => None
  | (k, v) :: rest => if (k =? key)%Z then Some v else lookup rest key
  end.

(** ** Second dashboard: [pages/01_claude버전.py] *)

Module Claude.

Definition SUNEUNG_DATES : Calendar :=
  [ (1994, "1993-11-16");
    (1995, "1994-11-23");
    (1996, "1995-11-22");
    (1997, "1996-11-13");
    (1998, "1997-11-19");
    (1999, "1998-11-18");
    (2000, "1999-11-17");
    (2001, "2000-11-15");
    (2002, "2001-11-07");
    (2003, "2002-11-06");
    (2004, "2003-11-05");
    (2005, "2004-11-17");
    (2006, "2005-11-23");
    (2007, "2006-11-16");
    (2008, "2007-11-15");
    (2009, "2008-11-13");
    (2010, "2009-11-12");
    (2011, "2010-11-18");
    (2012, "2011-11-10");
    (2013, "2012-11-08");
    (2014, "2013-11-07");
    (2015, "2014-11-13");
    (2016, "2015-11-12");
    (2017, "2016-11-17");
    (2018, "2017-11-23");
    (2019, "2018-11-15");
    (2020, "2019-11-14");
    (2021, "2020-12-03");
    (2022, "2021-11-18");
    (2023, "2022-11-17");
    (2024, "2023-11-16");
    (2025, "2024-11-14");
    (2026, "2025-11-13") ]%Z%string.

(** [df[(df['월'] == month) & (df['일'] == day)]]. *)
Definition same_day_data (df : DataFrame) (month day : Z) : DataFrame :=
  filter (fun r => (Frame.month (date r) =? month)%Z
                   && (Frame.day (date r) =? day)%Z) df.

(** The dictionary returned by [get_historical_stats]; [*_mean] is
    [..._평균], [*_hi] is [..._최고], [*_lo] is [..._최저], [count] is
    [데이터_수], [year_range] is [연도_범위]. *)
Record Stats : Type := mkStats {
  avg_mean : float;
  avg_var : float;   (* 평균기온_std is the square root of this *)
  avg_hi : float;
  avg_lo : float;
  min_mean : float;
  min_hi : float;
  min_lo : float;
  max_mean : float;
  max_hi : float;
  max_lo : float;
  count : nat;
  year_range : string;
  history : DataFrame
}.

Definition get_historical_stats (df : DataFrame) (month day : Z)
  : option Stats :=
  let same_day_data := same_day_data df month day in
  if (List.length same_day_data =? 0)%nat then None
  else
    let years := map (fun r => year (date r)) same_day_data in
    Some {|
      avg_mean := Series.mean (map avg_temp same_day_data);
      avg_var := Series.var (map avg_temp same_day_data);
      avg_hi := Series.max (map avg_temp same_day_data);
      avg_lo := Series.min (map avg_temp same_day_data);
      min_mean := Series.mean (map min_temp same_day_data);
      min_hi := Series.max (map min_temp same_day_data);
      min_lo := Series.min (map min_temp same_day_data);
      max_mean := Series.mean (map max_temp same_day_data);
      max_hi := Series.max (map max_temp same_day_data);
      max_lo := Series.min (map max_temp same_day_data);
      count := List.length same_day_data;
      year_range :=
        (str_of_Z (Series.min_year years) ++ "~"
         ++ str_of_Z (Series.max_year years))%string;
      history := Series.sort_by_year same_day_data
    |}.

(** [calculate_percentile(df, month, day, temp_value, temp_type)]:
    [None] when no row matches the month and day; otherwise the share of
    non-missing values strictly below [temp_value], in percent. *)
Definition calculate_percentile (df : DataFrame) (month day : Z)
    (temp_value : float) (temp_type : Frame.temp_type) : option float :=
  let same_day_data := same_day_data df month day in
  if (List.length same_day_data =? 0)%nat then None
  else
    let temps := dropna (map (column temp_type) same_day_data) in
    let percentile :=
      mul (true_divide (count_lt temps temp_value) (List.length temps))
          (Fin 100) in
    Some percentile.

(** [get_temperature_description(percentile)]: description and colour. *)
Definition get_temperature_description (percentile : float)
  : string * string :=
  if le percentile (Fin 5) then ("🥶 역대급 추위!", "blue")%string
  else if le percentile (Fin 15) then ("❄️ 매우 추움", "lightblue")%string
  else if le percentile (Fin 30) then ("🌨️ 다소 추움", "cyan")%string
  else if le percentile (Fin 70) then ("🌤️ 평년 수준", "gray")%string
  else if le percentile (Fin 85) then ("☀️ 다소 따뜻함", "orange")%string
  else if le percentile (Fin 95) then ("🔥 매우 따뜻함", "orangered")%string
  else ("🌋 역대급 더위!", "red")%string.

(** One dictionary appended to [suneung_data]: 학년도, 시험일, 평균기온,
    최저기온, 최고기온, 역사평균, 편차, 퍼센타일, 연도.  The three derived
    fields are [None] where the source stores [None]. *)
Record Entry : Type := mkEntry {
  label : string;
  exam_date : string;
  e_avg_temp : cell;
  e_min_temp : cell;
  e_max_temp : cell;
  hist_mean : option float;
  deviation : option float;
  percentile : option float;
  e_year : Z
}.

(** The body of the loop for one calendar item whose date has a row in
    the table; [row] is the first such row ([day_data.iloc[0]]). *)
Definition make_entry (df : DataFrame) (year : Z) (date_str : string)
    (date : Timestamp) (row : Row) : Entry :=
  let month := Frame.month date in
  let day := Frame.day date in
  let stats := get_historical_stats df month day in
  let avg_pct :=
    match stats with
    | Some _ => calculate_percentile df month day (of_cell (avg_temp row))
                                     AvgTemp
    | None => None
    end in
  {| label := (str_of_Z year ++ "학년도")%string;
     exam_date := date_str;
     e_avg_temp := avg_temp row;
     e_min_temp := min_temp row;
     e_max_temp := max_temp row;
     hist_mean := option_map avg_mean stats;
     deviation :=
       option_map (fun st => sub (of_cell (avg_temp row)) (avg_mean st))
                  stats;
     percentile := avg_pct;
     e_year := year |}.

(** The loop over the calendar's items; [acc] is the list built so far,
    [None] the exception of [to_datetime]. *)
Fixpoint suneung_loop (items : Calendar) (df : DataFrame)
    (acc : list Entry) : option (list Entry) :=
  match items with
  | [] => Some acc
  | (year, date_str) :: rest =>
      match to_datetime date_str with
      | None => None
      | Some date =>
          let day_data :=
            filter (fun r => Timestamp_eqb (Frame.date r) date) df in
          match day_data with
          | row :: _ =>
              suneung_loop rest df
                (acc ++ [make_entry df year date_str date row])
          | [] => suneung_loop rest df acc
          end
      end
  end.

Definition suneung_data (calendar : Calendar) (df : DataFrame)
  : option (list Entry) :=
  suneung_loop calendar df [].

End Claude.

(** ** First dashboard: [pages/00_gemini버전.py] *)

Module Gemini.

Definition suneung_dates : Calendar :=
  [ (1994, "1994-11-23"); (1995, "1995-11-22"); (1996, "1996-11-13");
    (1997, "1997-11-19");
    (1998, "1998-11-18"); (1999, "1999-11-17"); (2000, "2000-11-15");
    (2001, "2001-11-07");
    (2002, "2002-11-06"); (2003, "2003-11-05"); (2004, "2004-11-17");
    (2005, "2005-11-23");
    (2006, "2006-11-16"); (2007, "2007-11-15"); (2008, "2008-11-13");
    (2009, "2009-11-12");
    (2010, "2010-11-18"); (2011, "2011-11-10"); (2012, "2012-11-08");
    (2013, "2013-11-07");
    (2014, "2014-11-13"); (2015, "2015-11-12"); (2016, "2016-11-17");
    (2017, "2017-11-23");
    (2018, "2018-11-15"); (2019, "2019-11-14");
    (2020, "2020-12-03");
    (2021, "2021-11-18"); (2022, "2022-11-17"); (2023, "2023-11-16");
    (2024, "2024-11-14");
    (2025, "2025-11-13") ]%Z%string.

(** Descending insertion sort of the values that are not missing. *)
Fixpoint insert_desc (x : Q) (xs : list Q) : list Q :=
  match xs with
  | [] => [x]
  | y :: rest =>
      if Qle_bool y x then x :: y :: rest else y :: insert_desc x rest
  end.

Definition sort_desc (xs : list Q) : list Q := fold_right insert_desc [] xs.

(** Number of sorted values before the first one equal to [v]: the
    0-based start of [v]'s group of ties. *)
Fixpoint first_pos (v : Q) (sorted : list Q) : nat :=
  match sorted with
  | [] => O
  | x :: rest => if Qeq_bool x v then O else S (first_pos v rest)
  end.

(** [Series.rank(ascending=False, method='min')], as pandas computes it:
    the values that are not missing are sorted from high to low, every
    value gets the 1-based position of the start of its group of ties, and
    a missing value keeps a NaN rank. *)
Definition rank (s : list cell) : list float :=
  let sorted := sort_desc (dropna s) in
  map (fun c =>
         match c with
         | Some v => of_nat (1 + first_pos v sorted)
         | None => NaN
         end) s.

(** [df[(df['날짜'].dt.month == sel_month) & (df['날짜'].dt.day == sel_day)]]. *)
Definition history_df (df : DataFrame) (selected_date : Timestamp)
  : DataFrame :=
  filter (fun r => (month (date r) =? month selected_date)%Z
                   && (day (date r) =? day selected_date)%Z) df.

(** The rank shown for the selected date: [None] when the selected year
    has no row (the warning branch), otherwise the rank of the first row of
    that year together with [total_count]. *)
Definition cur_rank (df : DataFrame) (selected_date : Timestamp)
  : option (float * nat) :=
  let history_df := history_df df selected_date in
  let rank := rank (map avg_temp history_df) in
  let of_year :=
    filter (fun p => (year (date (fst p)) =? year selected_date)%Z)
           (combine history_df rank) in
  match of_year with
  | [] => None
  | (_, r) :: _ => Some (r, List.length history_df)
  end.

End Gemini.

(** ** Row-level reading of the percentile *)

Module Reading.

(** The row has a value in the queried column. *)
Definition has_value (t : temp_type) (r : Row) : bool :=
  match column t r with
  | Some _ => true
  | None => false
  end.

(** The row has a value in the queried column, strictly below [v]. *)
Definition value_below (t : temp_type) (v : float) (r : Row) : bool :=
  match column t r with
  | Some x => lt (Fin x) v
  | None => false
  end.

(** The row has a value in the queried column, strictly above [v]. *)
Definition value_above (t : temp_type) (v : Q) (r : Row) : bool :=
  match column t r with
  | Some x => Qlt_bool v x
  | None => false
  end.

(** The count-over-total share in binary64 arithmetic, the arithmetic the
    dashboards run on: [count / total * 100] with both integers converted
    to doubles. *)
Definition percent_binary64 (count total : nat) : PrimFloat.float :=
  PrimFloat.mul
    (PrimFloat.div (PrimFloat.of_uint63 (Uint63.of_Z (Z.of_nat count)))
                   (PrimFloat.of_uint63 (Uint63.of_Z (Z.of_nat total))))
    (PrimFloat.of_uint63 (Uint63.of_Z 100)).

(** The seven bands in order, from coldest to warmest. *)
Definition bands : list (string * string) :=
  [ ("🥶 역대급 추위!", "blue");
    ("❄️ 매우 추움", "lightblue");
    ("🌨️ 다소 추움", "cyan");
    ("🌤️ 평년 수준", "gray");
    ("☀️ 다소 따뜻함", "orange");
    ("🔥 매우 따뜻함", "orangered");
    ("🌋 역대급 더위!", "red") ]%string.

Definition band (i : nat) : string * string :=
  nth i bands (""%string, ""%string).

(** No row of the table falls on the given month and day. *)
Definition no_match (df : DataFrame) (month day : Z) : Prop :=
  forall r, In r df ->
            ~ (Frame.month (date r) = month /\ Frame.day (date r) = day).

(** The historical minimum and maximum of a column, as stored in the
    statistics. *)
Definition stat_lo (t : temp_type) (st : Claude.Stats) : float :=
  match t with
  | AvgTemp => Claude.avg_lo st
  | MinTemp => Claude.min_lo st
  | MaxTemp => Claude.max_lo st
  end.

Definition stat_hi (t : temp_type) (st : Claude.Stats) : float :=
  match t with
  | AvgTemp => Claude.avg_hi st
  | MinTemp => Claude.min_hi st
  | MaxTemp => Claude.max_hi st
  end.

(** The calendar item's date parses and some row of the table has exactly
    that date. *)
Definition has_record (df : DataFrame) (item : Z * string) : bool :=
  match to_datetime (snd item) with
  | Some d => existsb (fun r => Timestamp_eqb (date r) d) df
  | None => false
  end.

(** Sorted from high to low. *)
Definition Descending : list Q -> Prop :=
  StronglySorted (fun a b => b <= a).

(** Number of values strictly above [v]. *)
Definition above (v : Q) (l : list Q) : nat :=
  List.length (filter (Qlt_bool v) l).

(** The calendar item an entry was made from: its year and date string. *)
Definition entry_key (e : Claude.Entry) : Z * string :=
  (Claude.e_year e, Claude.exam_date e).

(** Every date string of the calendar parses. *)
Definition well_formed (calendar : Calendar) : Prop :=
  forall item, In item calendar -> to_datetime (snd item) <> None.

(** The sign agreement between percentile and deviation of an entry, as
    the specification words it: unless the percentile is exactly 50, it is
    above 50 if and only if the deviation is positive. *)
Definition sign_agrees (e : Claude.Entry) : Prop :=
  forall p d,
    Claude.percentile e = Some (Fin p) ->
    Claude.deviation e = Some (Fin d) ->
    ~ p == 50 ->
    (50 < p <-> 0 < d).

End Reading.

Import Reading.

(** ** Sample tables *)

Module Samples.

Definition row (y m d : Z) (avg lo hi : Q) : Row :=
  mkRow (mkTimestamp y m d) 108 (Some avg) (Some lo) (Some hi).

(** November 13th over five years, average temperatures
    -2.0, 1.0, 3.0, -1.0 and 0.5, among rows of other days. *)
Definition nov13_df : DataFrame :=
  [ row 2001 11 12 (4 # 1) (1 # 1) (8 # 1);
    row 2001 11 13 (-2 # 1) (-5 # 1) (2 # 1);
    row 2002 11 13 (1 # 1) (-3 # 1) (6 # 1);
    row 2003 11 13 (3 # 1) (0 # 1) (7 # 1);
    row 2004 11 13 (-1 # 1) (-4 # 1) (3 # 1);
    row 2005 11 13 (1 # 2) (-2 # 1) (5 # 1);
    row 2005 12 13 (-6 # 1) (-9 # 1) (-1 # 1) ].

(** Two rows of November 13th whose average temperature is missing (the
    minimum and maximum are present). *)
Definition missing_avg_df : DataFrame :=
  [ mkRow (mkTimestamp 2001 11 13) 108 None (Some (-5 # 1)) (Some (2 # 1));
    mkRow (mkTimestamp 2002 11 13) 108 None (Some (-3 # 1)) (Some (6 # 1));
    row 2002 11 14 (1 # 1) (-3 # 1) (6 # 1) ].

(** November 13th over five years with one very warm year: average
    temperatures 0, 1, 2, 3 and 100. *)
Definition skewed_df : DataFrame :=
  [ row 2001 11 13 (0 # 1) (-3 # 1) (4 # 1);
    row 2002 11 13 (1 # 1) (-2 # 1) (5 # 1);
    row 2003 11 13 (2 # 1) (-1 # 1) (6 # 1);
    row 2004 11 13 (3 # 1) (0 # 1) (7 # 1);
    row 2005 11 13 (100 # 1) (90 # 1) (110 # 1) ].

(** A one-item calendar pointing at the 2004 row of [skewed_df]. *)
Definition skewed_calendar : Calendar := [ (2005%Z, "2004-11-13"%string) ].

(** A calendar of three items against [nov13_df]: the second date has no
    row in the table. *)
Definition short_calendar : Calendar :=
  [ (2002, "2001-11-13"); (2003, "2002-11-14"); (2004, "2003-11-13") ]%Z%string.

(** November 13th over three years with one cold year: average
    temperatures 0, 10 and 11; the calendar points at the 2002 row. *)
Definition lopsided_df : DataFrame :=
  [ row 2001 11 13 (0 # 1) (-3 # 1) (4 # 1);
    row 2002 11 13 (10 # 1) (5 # 1) (15 # 1);
    row 2003 11 13 (11 # 1) (6 # 1) (16 # 1) ].

Definition lopsided_calendar : Calendar := [ (2003%Z, "2002-11-13"%string) ].

(** November 13th with tied averages (5, 7, 5, missing, 9). *)
Definition ties_df : DataFrame :=
  [ row 2001 11 13 (5 # 1) (1 # 1) (8 # 1);
    row 2002 11 13 (7 # 1) (2 # 1) (9 # 1);
    row 2003 11 13 (10 # 2) (0 # 1) (9 # 1);
    mkRow (mkTimestamp 2004 11 13) 108 None (Some (0 # 1)) (Some (9 # 1));
    row 2005 11 13 (9 # 1) (4 # 1) (12 # 1);
    row 2005 11 14 (20 # 1) (14 # 1) (22 # 1) ].

(** November 13th over 21 years, 2000 to 2020, with average temperatures
    0, 1, ..., 20. *)
Definition long_df : DataFrame :=
  map (fun i => row (2000 + Z.of_nat i) 11 13
                    (inject_Z (Z.of_nat i)) (-5 # 1) (25 # 1))
      (seq 0 21).

End Samples.

(** ** Further readings of the statistics *)

Module StatsReading.

(** The historical mean of a column, as stored in the statistics. *)
Definition stat_mean (t : temp_type) (st : Claude.Stats) : float :=
  match t with
  | AvgTemp => Claude.avg_mean st
  | MinTemp => Claude.min_mean st
  | MaxTemp => Claude.max_mean st
  end.

(** Rows in non-decreasing order of year. *)
Definition by_year (a b : Row) : Prop := (year (date a) <= year (date b))%Z.

(** The number of rows of a month and day that have a value in a column:
    the denominator of the percentile. *)
Definition valued (df : DataFrame) (month day : Z) (t : temp_type) : nat :=
  List.length (filter (has_value t) (Claude.same_day_data df month day)).

End StatsReading.

Import StatsReading.

(** ** Second dashboard: the tabs of [main] *)

Module ClaudeTab.

Import Claude.

(** *** Tab 1: one selected date *)

(** [df[df['날짜'].dt.date == selected_date]]. *)
Definition selected_data (df : DataFrame) (selected_date : Timestamp)
  : DataFrame :=
  filter (fun r => Timestamp_eqb (date r) selected_date) df.

(** What one of the three columns of the comparison shows: the
    description and colour of the percentile, the historical mean, the
    difference to it and the percentile. *)
Record Card : Type := mkCard {
  desc : string;
  color : string;
  card_mean : float;
  diff : float;
  pct : float
}.

(** The outcomes of the tab: the warning that the date has no data,
    nothing at all (the statistics are [None]), the [TypeError] of
    [get_temperature_description(None)], or the three cards under the
    header with the year range and the count. *)
Inductive Tab1 : Type :=
| Warning
| Blank
| TypeError
| Cards (year_range : string) (count : nat) (avg lo hi : Card).

Definition card (df : DataFrame) (month day : Z) (row : Row)
    (stats : Stats) (t : temp_type) : option Card :=
  match calculate_percentile df month day (of_cell (column t row)) t with
  | Some p =>
      let d := get_temperature_description p in
      Some {| desc := fst d;
              color := snd d;
              card_mean := stat_mean t stats;
              diff := sub (of_cell (column t row)) (stat_mean t stats);
              pct := p |}
  | None => None
  end.

Definition tab1 (df : DataFrame) (selected_date : Timestamp) : Tab1 :=
  match selected_data df selected_date with
  | [] => Warning
  | row :: _ =>
      let month := Frame.month selected_date in
      let day := Frame.day selected_date in
      match get_historical_stats df month day with
      | None => Blank
      | Some stats =>
          match card df month day row stats AvgTemp,
                card df month day row stats MinTemp,
                card df month day row stats MaxTemp with
          | Some a, Some b, Some c =>
              Cards (Claude.year_range stats) (Claude.count stats) a b c
          | _, _, _ => TypeError
          end
      end
  end.

(** *** Tab 2: the summary of the exam days *)

(** A cell of the [퍼센타일] column of [suneung_df]: a stored [None] is
    read as NaN. *)
Definition pct_key (e : Entry) : float :=
  match percentile e with
  | Some p => p
  | None => NaN
  end.

Definition is_nan (x : float) : bool :=
  match x with
  | NaN => true
  | _ => false
  end.

(** [len(suneung_df[suneung_df['퍼센타일'] <= 30])]. *)
Definition cold_count (suneung_df : list Entry) : nat :=
  List.length (filter (fun e => le (pct_key e) (Fin 30)) suneung_df).

(** Insertion of one entry into a list sorted by percentile, after the
    entries that do not come later in the requested order. *)
Fixpoint insert_by_pct (ascending : bool) (e : Entry) (l : list Entry)
  : list Entry :=
  match l with
  | [] => [e]
  | x :: rest =>
      if (if ascending then lt (pct_key e) (pct_key x)
          else lt (pct_key x) (pct_key e))
      then e :: x :: rest
      else x :: insert_by_pct ascending e rest
  end.

(** [sort_values('퍼센타일', ascending=...)]: the entries with a percentile
    in the requested order, then the entries whose percentile is NaN.  (The
    order among equal percentiles is not fixed by pandas' default sort;
    here equal entries keep their order.) *)
Definition sort_values (ascending : bool) (df : list Entry) : list Entry :=
  fold_right (insert_by_pct ascending) []
             (rev (filter (fun e => negb (is_nan (pct_key e))) df))
  ++ filter (fun e => is_nan (pct_key e)) df.

Definition cold_suneungs (suneung_df : list Entry) : list Entry :=
  sort_values true
    (filter (fun e => le (pct_key e) (Fin 20)) suneung_df).

Definition warm_suneungs (suneung_df : list Entry) : list Entry :=
  sort_values false
    (filter (fun e => le (Fin 80) (pct_key e)) suneung_df).

(** The rows listed under a top-5 heading: [head(5)], each with the
    description of its percentile. *)
Definition top5 (pool : list Entry) : list (Entry * string) :=
  map (fun row => (row, fst (get_temperature_description (pct_key row))))
      (firstn 5 pool).

(** [Series.idxmin()] with the position's value: the first position of
    the smallest value present, [None] when no value is present. *)
Fixpoint idxmin (s : list cell) : option (nat * Q) :=
  match s with
  | [] => None
  | c :: rest =>
      match c, idxmin rest with
      | Some x, Some (j, b) =>
          if Qle_bool x b then Some (O, x) else Some (S j, b)
      | Some x, None => Some (O, x)
      | None, Some (j, b) => Some (S j, b)
      | None, None => None
      end
  end.

(** [Series.idxmax()], likewise for the largest value. *)
Fixpoint idxmax (s : list cell) : option (nat * Q) :=
  match s with
  | [] => None
  | c :: rest =>
      match c, idxmax rest with
      | Some x, Some (j, b) =>
          if Qle_bool b x then Some (O, x) else Some (S j, b)
      | Some x, None => Some (O, x)
      | None, Some (j, b) => Some (S j, b)
      | None, None => None
      end
  end.

(** [suneung_df.loc[suneung_df['평균기온'].idxmin()]]; [None] stands for the
    exception raised when no entry has an average temperature. *)
Definition coldest (suneung_df : list Entry) : option Entry :=
  match idxmin (map e_avg_temp suneung_df) with
  | Some (i, _) => nth_error suneung_df i
  | None => None
  end.

Definition warmest (suneung_df : list Entry) : option Entry :=
  match idxmax (map e_avg_temp suneung_df) with
  | Some (i, _) => nth_error suneung_df i
  | None => None
  end.

End ClaudeTab.

(** ** Readings of the summary *)

Module TabReading.

(** Two entries are in the requested order of percentile. *)
Definition ordered (ascending : bool) (a b : Claude.Entry) : Prop :=
  if ascending
  then le (ClaudeTab.pct_key a) (ClaudeTab.pct_key b) = true
  else le (ClaudeTab.pct_key b) (ClaudeTab.pct_key a) = true.

(** The pools the two top-5 lists are drawn from. *)
Definition cold_pool (suneung_df : list Claude.Entry) : list Claude.Entry :=
  filter (fun e => le (ClaudeTab.pct_key e) (Fin 20)) suneung_df.

Definition warm_pool (suneung_df : list Claude.Entry) : list Claude.Entry :=
  filter (fun e => le (Fin 80) (ClaudeTab.pct_key e)) suneung_df.

(** An entry with nothing but a percentile, for examples. *)
Definition entry_with (y : Z) (avg : cell) (p : float) : Claude.Entry :=
  Claude.mkEntry (str_of_Z y ++ "학년도")%string ""%string avg None None
                 None None (Some p) y.

(** Nine exam days with percentiles 10, 90, 0, 50, 15, 20, 5, NaN and
    12 and average temperatures 3, 9, 1, 5, missing, 3, 1, 4, 2. *)
Definition sample_entries : list Claude.Entry :=
  [ entry_with 2001 (Some (3 # 1)) (Fin 10);
    entry_with 2002 (Some (9 # 1)) (Fin 90);
    entry_with 2003 (Some (1 # 1)) (Fin 0);
    entry_with 2004 (Some (5 # 1)) (Fin 50);
    entry_with 2005 None (Fin 15);
    entry_with 2006 (Some (3 # 1)) (Fin 20);
    entry_with 2007 (Some (1 # 1)) (Fin 5);
    entry_with 2008 (Some (4 # 1)) NaN;
    entry_with 2009 (Some (2 # 1)) (Fin 12) ].

End TabReading.

Import TabReading.

(** ** First dashboard: the two tabs *)

Module GeminiTab.

Import Gemini.

(** *** Tab 1: one selected date *)

(** [history_df[history_df['날짜'].dt.year == selected_date.year]]. *)
Definition current_year_data (df : DataFrame) (selected_date : Timestamp)
  : DataFrame :=
  filter (fun r => (year (date r) =? year selected_date)%Z)
         (history_df df selected_date).

(** [history_df[history_df['날짜'].dt.year != selected_date.year]]. *)
Definition past_df (df : DataFrame) (selected_date : Timestamp)
  : DataFrame :=
  filter (fun r => negb (year (date r) =? year selected_date)%Z)
         (history_df df selected_date).

(** The mean of the other years, [past_df['평균기온'].mean()]. *)
Definition avg_temp_hist (df : DataFrame) (selected_date : Timestamp)
  : float :=
  Series.mean (map avg_temp (past_df df selected_date)).

(** Python's [int] on a float: truncation towards zero; [None] stands for
    the exception raised on NaN and on an infinity. *)
Definition int (x : float) : option Z :=
  match x with
  | Fin q => Some (Z.quot (Qnum q) (Zpos (Qden q)))
  | _ => None
  end.

(** The outcomes of the tab: the warning that the date has no data, the
    [ValueError] of [int(cur_rank)], or the metric (temperature of the day
    and difference to the mean of the other years) with the rank line
    (rank and [total_count]). *)
Inductive Tab1 : Type :=
| Warning
| ValueError
| Info (cur_temp : cell) (diff : float) (rank : Z) (total_count : nat).

Definition tab1 (df : DataFrame) (selected_date : Timestamp) : Tab1 :=
  match current_year_data df selected_date with
  | [] => Warning
  | row :: _ =>
      let cur_temp := avg_temp row in
      let diff := sub (of_cell cur_temp) (avg_temp_hist df selected_date) in
      match cur_rank df selected_date with
      | Some (r, total_count) =>
          match int r with
          | Some k => Info cur_temp diff k total_count
          | None => ValueError
          end
      | None => Warning
      end
  end.

(** *** Tab 2: the exam days *)

(** One dictionary appended to [suneung_data]: 시험년도, 날짜, 평균기온,
    최저기온, 최고기온. *)
Record ExamDay : Type := mkExamDay {
  exam_year : Z;
  exam_date : string;
  exam_avg : cell;
  exam_min : cell;
  exam_max : cell
}.

(** The rows appended for one calendar item: the first row of the table
    whose date equals the date string (a string that is not a date equals
    no date), or nothing. *)
Definition rows_of (df : DataFrame) (item : Z * string) : list ExamDay :=
  match to_datetime (snd item) with
  | Some d =>
      match filter (fun r => Timestamp_eqb (date r) d) df with
      | row :: _ =>
          [ {| exam_year := fst item;
               exam_date := snd item;
               exam_avg := avg_temp row;
               exam_min := min_temp row;
               exam_max := max_temp row |} ]
      | [] => []
      end
  | None => []
  end.

(** The loop over [suneung_dates.items()]. *)
Fixpoint suneung_loop (items : Calendar) (df : DataFrame)
    (acc : list ExamDay) : list ExamDay :=
  match items with
  | [] => acc
  | item :: rest => suneung_loop rest df (acc ++ rows_of df item)
  end.

Definition suneung_data (calendar : Calendar) (df : DataFrame)
  : list ExamDay :=
  suneung_loop calendar df [].

End GeminiTab.

(** ** Readings across the two dashboards *)

Module CrossReading.

(** The part of an entry of the second dashboard that the first dashboard
    keeps as well. *)
Definition exam_day_of (e : Claude.Entry) : GeminiTab.ExamDay :=
  {| GeminiTab.exam_year := Claude.e_year e;
     GeminiTab.exam_date := Claude.exam_date e;
     GeminiTab.exam_avg := Claude.e_avg_temp e;
     GeminiTab.exam_min := Claude.e_min_temp e;
     GeminiTab.exam_max := Claude.e_max_temp e |}.

(** The entries the second dashboard makes for one calendar item. *)
Definition entries_of (df : DataFrame) (item : Z * string)
  : list Claude.Entry :=
  match to_datetime (snd item) with
  | Some d =>
      match filter (fun r => Timestamp_eqb (date r) d) df with
      | row :: _ => [Claude.make_entry df (fst item) (snd item) d row]
      | [] => []
      end
  | None => []
  end.

(** The number of rows with an average temperature equal to [v]. *)
Definition ties (v : Q) (rows : list Row) : nat :=
  List.length
    (filter (fun r => match avg_temp r with
                      | Some x => Qeq_bool x v
                      | None => false
                      end) rows).

End CrossReading.

Import CrossReading.

(** ** Second dashboard: the exploration tab *)

Module ClaudeExplore.

(** [df[(df['년'] >= year_range[0]) & (df['년'] <= year_range[1])]]. *)
Definition filtered_df (df : DataFrame) (year_range : Z * Z) : DataFrame :=
  filter (fun r => (fst year_range <=? year (date r))%Z
                   && (year (date r) <=? snd year_range)%Z) df.

(** Insertion of a group key into the ascending list of distinct keys. *)
Fixpoint insert_key (k : Z) (keys : list Z) : list Z :=
  match keys with
  | [] => [k]
  | x :: rest =>
      if (k <? x)%Z then k :: x :: rest
      else if (k =? x)%Z then x :: rest
      else x :: insert_key k rest
  end.

(** The group keys of [groupby]: the distinct keys in ascending order. *)
Definition group_keys (key : Row -> Z) (rows : DataFrame) : list Z :=
  fold_right insert_key [] (map key rows).

(** One row of an aggregated table: the key and the three means. *)
Record GroupRow : Type := mkGroupRow {
  g_key : Z;
  g_avg : float;
  g_min : float;
  g_max : float
}.

(** [groupby(key).agg({'평균기온': 'mean', '최저기온': 'mean',
    '최고기온': 'mean'}).reset_index()]. *)
Definition groupby_mean (key : Row -> Z) (rows : DataFrame)
  : list GroupRow :=
  map (fun k =>
         let group := filter (fun r => (key r =? k)%Z) rows in
         {| g_key := k;
            g_avg := Series.mean (map avg_temp group);
            g_min := Series.mean (map min_temp group);
            g_max := Series.mean (map max_temp group) |})
      (group_keys key rows).

Definition yearly_avg (df : DataFrame) (year_range : Z * Z)
  : list GroupRow :=
  groupby_mean (fun r => year (date r)) (filtered_df df year_range).

Definition monthly_avg (df : DataFrame) (year_range : Z * Z)
  : list GroupRow :=
  groupby_mean (fun r => month (date r)) (filtered_df df year_range).

End ClaudeExplore.

(** * Properties *)

(** ** Basic facts about the numeric model *)

Lemma Qlt_bool_iff (x y : Q) : Qlt_bool x y = true <-> x < y.
Proof.
  unfold Qlt_bool. rewrite Qlt_alt.
  destruct (x ?= y); split; congruence.
Qed.

Lemma Qlt_bool_false_iff (x y : Q) : Qlt_bool x y = false <-> y <= x.
Proof.
  rewrite <- Bool.not_true_iff_false, Qlt_bool_iff.
  split; [apply Qnot_lt_le | apply Qle_not_lt].
Qed.

Lemma inject_nat_nonneg (n : nat) : 0 <= inject_Z (Z.of_nat n).
Proof.
  change 0 with (inject_Z 0). rewrite <- Zle_Qle. lia.
Qed.

Lemma inject_nat_le (a b : nat) :
  (a <= b)%nat -> inject_Z (Z.of_nat a) <= inject_Z (Z.of_nat b).
Proof.
  intros H. rewrite <- Zle_Qle. lia.
Qed.

Lemma inject_nat_pos (n : nat) : (0 < n)%nat -> 0 < inject_Z (Z.of_nat n).
Proof.
  intros H. change 0 with (inject_Z 0). rewrite <- Zlt_Qlt. lia.
Qed.

(** A share [c/n] of a non-empty total, in percent, lies in [[0,100]]. *)
Lemma percent_bounds (c n : nat) :
  (c <= n)%nat -> (0 < n)%nat ->
  0 <= inject_Z (Z.of_nat c) / inject_Z (Z.of_nat n) * 100 <= 100.
Proof.
  intros Hcn Hn.
  pose proof (inject_nat_nonneg c) as Hc.
  pose proof (inject_nat_le _ _ Hcn) as Hle.
  pose proof (inject_nat_pos _ Hn) as Hpos.
  set (a := inject_Z (Z.of_nat c)) in *.
  set (b := inject_Z (Z.of_nat n)) in *.
  assert (H0 : 0 <= a / b) by (apply Qle_shift_div_l; lra).
  assert (H1 : a / b <= 1) by (apply Qle_shift_div_r; lra).
  lra.
Qed.

(** The share is monotone in the count. *)
Lemma percent_mono (c1 c2 n : nat) :
  (c1 <= c2)%nat -> (0 < n)%nat ->
  inject_Z (Z.of_nat c1) / inject_Z (Z.of_nat n) * 100
  <= inject_Z (Z.of_nat c2) / inject_Z (Z.of_nat n) * 100.
Proof.
  intros Hc Hn.
  pose proof (inject_nat_le _ _ Hc) as Hle.
  pose proof (inject_nat_pos _ Hn) as Hpos.
  set (a := inject_Z (Z.of_nat c1)) in *.
  set (b := inject_Z (Z.of_nat c2)) in *.
  set (d := inject_Z (Z.of_nat n)) in *.
  assert (H : a / d <= b / d).
  { apply Qle_shift_div_l; [lra|].
    unfold Qdiv. rewrite <- Qmult_assoc, (Qmult_comm (/ d)), Qmult_inv_r; lra. }
  lra.
Qed.

(** ** Facts about columns and counts *)

Lemma count_lt_le_length (temps : list Q) (v : float) :
  (count_lt temps v <= List.length temps)%nat.
Proof. unfold count_lt. apply filter_length_le. Qed.

Lemma dropna_length_filter (s : list cell) :
  List.length (dropna s)
  = List.length (filter (fun c => match c with Some _ => true | None => false end) s).
Proof.
  induction s as [|[q|] s IH]; simpl; auto.
Qed.

Lemma dropna_In (s : list cell) (q : Q) : In q (dropna s) <-> In (Some q) s.
Proof.
  induction s as [|[x|] s IH]; simpl.
  - tauto.
  - rewrite IH. split; intros [H|H]; auto; left; congruence.
  - rewrite IH. split; [auto|]. intros [H|H]; [discriminate|assumption].
Qed.

Lemma dropna_nonempty (s : list cell) (q : Q) :
  In (Some q) s -> (0 < List.length (dropna s))%nat.
Proof.
  intros H. apply dropna_In in H.
  destruct (dropna s); [contradiction | simpl; lia].
Qed.

Lemma count_lt_rows (t : temp_type) (v : float) (rows : list Row) :
  count_lt (dropna (map (column t) rows)) v
  = List.length (filter (value_below t v) rows).
Proof.
  unfold count_lt, value_below.
  induction rows as [|r rows IH]; [reflexivity|].
  cbn [map dropna filter].
  destruct (column t r) as [x|]; [|exact IH].
  cbn [dropna filter].
  destruct (lt (Fin x) v); cbn [List.length]; rewrite IH; reflexivity.
Qed.

Lemma length_dropna_rows (t : temp_type) (rows : list Row) :
  List.length (dropna (map (column t) rows))
  = List.length (filter (has_value t) rows).
Proof.
  unfold has_value.
  induction rows as [|r rows IH]; simpl; [reflexivity|].
  destruct (column t r); simpl; rewrite IH; reflexivity.
Qed.

Section Percentile.

Variable df : DataFrame.
Variables month day : Z.
Variable temp_type : Frame.temp_type.

Local Abbreviation same := (Claude.same_day_data df month day).
Local Abbreviation temps := (dropna (map (column temp_type) same)).

(** The guard of [calculate_percentile] fires exactly on an empty match. *)
Lemma calculate_percentile_None (v : float) :
  Claude.calculate_percentile df month day v temp_type = None
  <-> same = [].
Proof.
  unfold Claude.calculate_percentile.
  destruct same; simpl; split; intros H; congruence.
Qed.

(** Past the guard, the result is the scaled quotient of the two counts. *)
Lemma calculate_percentile_unfold (v : float) :
  same <> [] ->
  Claude.calculate_percentile df month day v temp_type
  = Some (mul (true_divide (count_lt temps v) (List.length temps)) (Fin 100)).
Proof.
  intros H. unfold Claude.calculate_percentile.
  destruct same; [contradiction | reflexivity].
Qed.

(** With a value present, the result is a finite rational. *)
Lemma calculate_percentile_Fin (v : float) :
  (0 < List.length temps)%nat ->
  Claude.calculate_percentile df month day v temp_type
  = Some (Fin (inject_Z (Z.of_nat (count_lt temps v))
               / inject_Z (Z.of_nat (List.length temps)) * 100)).
Proof.
  intros H.
  rewrite calculate_percentile_unfold.
  - unfold true_divide. destruct (List.length temps); [lia | reflexivity].
  - intros E. rewrite E in H. simpl in H. lia.
Qed.

Lemma temps_nonempty :
  (exists r, In r same /\ has_value temp_type r = true) ->
  (0 < List.length temps)%nat.
Proof.
  intros [r [Hin Hv]]. unfold has_value in Hv.
  destruct (column temp_type r) as [q|] eqn:E; [|discriminate].
  apply (dropna_nonempty _ q). rewrite <- E. apply in_map. exact Hin.
Qed.

End Percentile.

(** C1.  When some row of the queried month and day has a value in the
    queried column, [calculate_percentile] returns a finite number equal to
    (rows of that day with a value strictly below the query) / (rows of
    that day with a value) * 100, which lies in [[0,100]]; the comparison is
    strict, so values equal to the query are not counted.  On the November
    13th values -2.0, 1.0, 3.0, -1.0, 0.5 the percentile of 1.0 is 60, also
    when the quotient 3/5*100 is evaluated in binary64 arithmetic. *)
Theorem calculate_percentile_formula :
  (forall df month day v t,
      (exists r, In r (Claude.same_day_data df month day)
                 /\ has_value t r = true) ->
      exists p,
        Claude.calculate_percentile df month day v t = Some (Fin p)
        /\ p == inject_Z (Z.of_nat (List.length
                   (filter (value_below t v)
                           (Claude.same_day_data df month day))))
                / inject_Z (Z.of_nat (List.length
                   (filter (has_value t)
                           (Claude.same_day_data df month day))))
                * 100
        /\ 0 <= p <= 100)
  /\ (forall t x r, column t r = Some x -> value_below t (Fin x) r = false)
  /\ (exists p,
        Claude.calculate_percentile Samples.nov13_df 11 13 (Fin 1) AvgTemp
        = Some (Fin p) /\ p == 60)
  /\ percent_binary64 3 5 = PrimFloat.of_uint63 (Uint63.of_Z 60).
Proof.
  split; [|split; [|split]].
  - intros df month day v t Hex.
    pose proof (temps_nonempty df month day t Hex) as Hn.
    eexists. split; [apply calculate_percentile_Fin; exact Hn|].
    rewrite count_lt_rows, length_dropna_rows. split; [reflexivity|].
    apply percent_bounds.
    + rewrite <- count_lt_rows, <- length_dropna_rows.
      apply count_lt_le_length.
    + rewrite <- length_dropna_rows. exact Hn.
  - intros t x r E. unfold value_below. rewrite E. simpl.
    apply Qlt_bool_false_iff. apply Qle_refl.
  - eexists. split; [vm_compute; reflexivity | reflexivity].
  - vm_compute. reflexivity.
Qed.

(** ** The empty match *)

Lemma same_day_data_In (df : DataFrame) (month day : Z) (r : Row) :
  In r (Claude.same_day_data df month day)
  <-> In r df /\ Frame.month (date r) = month /\ Frame.day (date r) = day.
Proof.
  unfold Claude.same_day_data. rewrite filter_In, andb_true_iff, !Z.eqb_eq.
  reflexivity.
Qed.

Lemma same_day_data_nil (df : DataFrame) (month day : Z) :
  Claude.same_day_data df month day = [] <-> no_match df month day.
Proof.
  unfold no_match. split.
  - intros E r Hin Hmd.
    assert (H : In r (Claude.same_day_data df month day))
      by (apply same_day_data_In; tauto).
    rewrite E in H. exact H.
  - intros H. destruct (Claude.same_day_data df month day) as [|r l] eqn:E;
      [reflexivity|].
    assert (Hin : In r (Claude.same_day_data df month day))
      by (rewrite E; left; reflexivity).
    apply same_day_data_In in Hin. destruct Hin as [Hin Hmd].
    destruct (H r Hin Hmd).
Qed.

Lemma get_historical_stats_None (df : DataFrame) (month day : Z) :
  Claude.get_historical_stats df month day = None
  <-> Claude.same_day_data df month day = [].
Proof.
  unfold Claude.get_historical_stats.
  destruct (Claude.same_day_data df month day); simpl; split; congruence.
Qed.

(** C2.  [get_historical_stats] returns [None] exactly when no row has the
    given month and day, and so does [calculate_percentile], whatever the
    query value and column; both are total functions, so an empty match
    yields [None] from both and nothing else. *)
Theorem not_found_iff_no_match (df : DataFrame) (month day : Z) :
  (Claude.get_historical_stats df month day = None
   <-> no_match df month day)
  /\ (forall v t,
         Claude.calculate_percentile df month day v t = None
         <-> no_match df month day)
  /\ (forall v t,
         Claude.calculate_percentile df month day v t = None
         <-> Claude.get_historical_stats df month day = None).
Proof.
  split; [|split].
  - rewrite get_historical_stats_None. apply same_day_data_nil.
  - intros v t. rewrite calculate_percentile_None. apply same_day_data_nil.
  - intros v t.
    rewrite calculate_percentile_None, get_historical_stats_None.
    reflexivity.
Qed.

(** ** The band classifier *)

Lemma Qle_bool_false_iff (x y : Q) : Qle_bool x y = false <-> y < x.
Proof.
  rewrite <- Bool.not_true_iff_false, Qle_bool_iff.
  split; [apply Qnot_le_lt | apply Qlt_not_le].
Qed.

Ltac band_cases p :=
  unfold Claude.get_temperature_description, le;
  destruct (Qle_bool p 5) eqn:H5;
  [|destruct (Qle_bool p 15) eqn:H15;
    [|destruct (Qle_bool p 30) eqn:H30;
      [|destruct (Qle_bool p 70) eqn:H70;
        [|destruct (Qle_bool p 85) eqn:H85;
          [|destruct (Qle_bool p 95) eqn:H95]]]]];
  repeat match goal with
         | H : Qle_bool _ _ = true |- _ => apply Qle_bool_iff in H
         | H : Qle_bool _ _ = false |- _ => apply Qle_bool_false_iff in H
         end.

(** C3.  Every rational percentile, in particular every one in [[0,100]],
    is mapped to exactly one of the seven bands, and the band is decided by
    the inclusive upper bounds 5, 15, 30, 70, 85, 95: band 0 is [p <= 5],
    band 1 is [5 < p <= 15], ..., band 6 is [95 < p].  Percentile 5 is in
    band 0 and percentile 5.01 in band 1. *)
Theorem bands_partition (p : Q) :
  (exists i, (i < 7)%nat
             /\ Claude.get_temperature_description (Fin p) = band i
             /\ forall j, (j < 7)%nat ->
                  Claude.get_temperature_description (Fin p) = band j ->
                  j = i)
  /\ (Claude.get_temperature_description (Fin p) = band 0 <-> p <= 5)
  /\ (Claude.get_temperature_description (Fin p) = band 1
      <-> 5 < p /\ p <= 15)
  /\ (Claude.get_temperature_description (Fin p) = band 2
      <-> 15 < p /\ p <= 30)
  /\ (Claude.get_temperature_description (Fin p) = band 3
      <-> 30 < p /\ p <= 70)
  /\ (Claude.get_temperature_description (Fin p) = band 4
      <-> 70 < p /\ p <= 85)
  /\ (Claude.get_temperature_description (Fin p) = band 5
      <-> 85 < p /\ p <= 95)
  /\ (Claude.get_temperature_description (Fin p) = band 6 <-> 95 < p)
  /\ Claude.get_temperature_description (Fin 5) = band 0
  /\ Claude.get_temperature_description (Fin (501 # 100)) = band 1.
Proof.
  split.
  - band_cases p;
      [exists 0%nat | exists 1%nat | exists 2%nat | exists 3%nat
       | exists 4%nat | exists 5%nat | exists 6%nat];
      (split; [lia | split; [reflexivity|]]);
      intros j Hj E;
      do 7 (destruct j as [|j]; [first [reflexivity | discriminate E]|]);
      lia.
  - cbv [band bands nth].
    band_cases p; repeat split; intros;
      repeat match goal with H : _ /\ _ |- _ => destruct H end;
      first [discriminate | lra | reflexivity | exfalso; lra].
Qed.

Lemma calculate_percentile_formula_witness :
  exists p,
    Claude.calculate_percentile Samples.nov13_df 11 13 (Fin 1) AvgTemp
    = Some (Fin p)
    /\ p == inject_Z (Z.of_nat (List.length
               (filter (value_below AvgTemp (Fin 1))
                       (Claude.same_day_data Samples.nov13_df 11 13))))
            / inject_Z (Z.of_nat (List.length
               (filter (has_value AvgTemp)
                       (Claude.same_day_data Samples.nov13_df 11 13))))
            * 100
    /\ 0 <= p <= 100.
Proof.
  apply (proj1 calculate_percentile_formula).
  exists (Samples.row 2001 11 13 (-2 # 1) (-5 # 1) (2 # 1)).
  split; [simpl; auto | reflexivity].
Defined.

(** ** Order properties of the percentile *)

Lemma lt_le_trans (t : Q) (v1 v2 : float) :
  lt (Fin t) v1 = true -> le v1 v2 = true -> lt (Fin t) v2 = true.
Proof.
  destruct v1 as [x|n1|], v2 as [y|n2|]; simpl; try discriminate.
  - rewrite !Qlt_bool_iff, Qle_bool_iff. intros H1 H2.
    apply Qlt_le_trans with x; assumption.
  - intros _ H. exact H.
  - intros H1 H2. rewrite H2 in H1. discriminate.
  - destruct n1; simpl; [discriminate|]. intros _ H. exact H.
Qed.

Lemma filter_length_mono {A : Type} (f g : A -> bool) (l : list A) :
  (forall x, In x l -> f x = true -> g x = true) ->
  (List.length (filter f l) <= List.length (filter g l))%nat.
Proof.
  induction l as [|a l IH]; intros H; simpl; [lia|].
  assert (IH' : (List.length (filter f l) <= List.length (filter g l))%nat)
    by (apply IH; intros x Hx; apply H; right; exact Hx).
  destruct (f a) eqn:Fa.
  - rewrite (H a (or_introl eq_refl) Fa). simpl. lia.
  - destruct (g a); simpl; lia.
Qed.

Lemma count_lt_mono (temps : list Q) (v1 v2 : float) :
  le v1 v2 = true -> (count_lt temps v1 <= count_lt temps v2)%nat.
Proof.
  intros H. unfold count_lt. apply filter_length_mono.
  intros x _ Hx. apply lt_le_trans with v1; assumption.
Qed.

(** C5.  For a month and day with a value in the queried column,
    [calculate_percentile] is monotone in the query value: if [v1 <= v2]
    then both results are finite and the first is at most the second. *)
Theorem calculate_percentile_monotone
    (df : DataFrame) (month day : Z) (t : temp_type) (v1 v2 : float) :
  (exists r, In r (Claude.same_day_data df month day)
             /\ has_value t r = true) ->
  le v1 v2 = true ->
  exists p1 p2,
    Claude.calculate_percentile df month day v1 t = Some (Fin p1)
    /\ Claude.calculate_percentile df month day v2 t = Some (Fin p2)
    /\ p1 <= p2.
Proof.
  intros Hex Hle.
  pose proof (temps_nonempty df month day t Hex) as Hn.
  do 2 eexists.
  split; [apply calculate_percentile_Fin; exact Hn|].
  split; [apply calculate_percentile_Fin; exact Hn|].
  apply percent_mono; [apply count_lt_mono; exact Hle | exact Hn].
Qed.

Lemma calculate_percentile_monotone_witness :
  exists p1 p2,
    Claude.calculate_percentile Samples.nov13_df 11 13 (Fin (1 # 2)) AvgTemp
    = Some (Fin p1)
    /\ Claude.calculate_percentile Samples.nov13_df 11 13 (Fin 3) AvgTemp
       = Some (Fin p2)
    /\ p1 <= p2.
Proof.
  apply calculate_percentile_monotone.
  - exists (Samples.row 2001 11 13 (-2 # 1) (-5 # 1) (2 # 1)).
    split; [simpl; auto | reflexivity].
  - reflexivity.
Defined.

(** ** Extremes *)

Lemma fold_Qmin_le_init (rest : list Q) (x : Q) : fold_left Qmin rest x <= x.
Proof.
  revert x. induction rest as [|a rest IH]; intros x; simpl.
  - apply Qle_refl.
  - apply Qle_trans with (Qmin x a); [apply IH | apply Q.le_min_l].
Qed.

Lemma fold_Qmin_le (rest : list Q) (x y : Q) :
  In y (x :: rest) -> fold_left Qmin rest x <= y.
Proof.
  revert x. induction rest as [|a rest IH]; intros x Hin.
  - destruct Hin as [<-|[]]. apply Qle_refl.
  - simpl. destruct Hin as [<-|[<-|Hin]].
    + apply Qle_trans with (Qmin x a);
        [apply fold_Qmin_le_init | apply Q.le_min_l].
    + apply Qle_trans with (Qmin x a);
        [apply fold_Qmin_le_init | apply Q.le_min_r].
    + apply IH. right. exact Hin.
Qed.

Lemma fold_Qmax_ge_init (rest : list Q) (x : Q) : x <= fold_left Qmax rest x.
Proof.
  revert x. induction rest as [|a rest IH]; intros x; simpl.
  - apply Qle_refl.
  - apply Qle_trans with (Qmax x a); [apply Q.le_max_l | apply IH].
Qed.

Lemma fold_Qmax_ge (rest : list Q) (x y : Q) :
  In y (x :: rest) -> y <= fold_left Qmax rest x.
Proof.
  revert x. induction rest as [|a rest IH]; intros x Hin.
  - destruct Hin as [<-|[]]. apply Qle_refl.
  - simpl. destruct Hin as [<-|[<-|Hin]].
    + apply Qle_trans with (Qmax x a);
        [apply Q.le_max_l | apply fold_Qmax_ge_init].
    + apply Qle_trans with (Qmax x a);
        [apply Q.le_max_r | apply fold_Qmax_ge_init].
    + apply IH. right. exact Hin.
Qed.

(** [Series.min] is a lower bound and [Series.max] an upper bound of the
    values present. *)
Lemma Series_min_le (s : list cell) (lo : Q) :
  Series.min s = Fin lo -> forall x, In x (dropna s) -> lo <= x.
Proof.
  unfold Series.min. destruct (dropna s) as [|a rest]; [discriminate|].
  intros E x Hin. injection E as <-. apply fold_Qmin_le. exact Hin.
Qed.

Lemma Series_max_ge (s : list cell) (hi : Q) :
  Series.max s = Fin hi -> forall x, In x (dropna s) -> x <= hi.
Proof.
  unfold Series.max. destruct (dropna s) as [|a rest]; [discriminate|].
  intros E x Hin. injection E as <-. apply fold_Qmax_ge. exact Hin.
Qed.

Lemma Series_min_Fin_nonempty (s : list cell) (lo : Q) :
  Series.min s = Fin lo -> (0 < List.length (dropna s))%nat.
Proof.
  unfold Series.min. destruct (dropna s); [discriminate | simpl; lia].
Qed.

Lemma Series_max_Fin_nonempty (s : list cell) (hi : Q) :
  Series.max s = Fin hi -> (0 < List.length (dropna s))%nat.
Proof.
  unfold Series.max. destruct (dropna s); [discriminate | simpl; lia].
Qed.

Lemma count_lt_none (temps : list Q) (v : float) :
  (forall x, In x temps -> lt (Fin x) v = false) -> count_lt temps v = 0%nat.
Proof.
  unfold count_lt. induction temps as [|a l IH]; intros H; [reflexivity|].
  cbn [filter]. rewrite (H a (or_introl eq_refl)).
  apply IH. intros x Hx. apply H. right. exact Hx.
Qed.

Lemma count_lt_all (temps : list Q) (v : float) :
  (forall x, In x temps -> lt (Fin x) v = true) ->
  count_lt temps v = List.length temps.
Proof.
  unfold count_lt. induction temps as [|a l IH]; intros H; [reflexivity|].
  cbn [filter]. rewrite (H a (or_introl eq_refl)). cbn [List.length].
  f_equal. apply IH. intros x Hx. apply H. right. exact Hx.
Qed.

Lemma stats_lo_hi (df : DataFrame) (month day : Z) (st : Claude.Stats)
    (t : temp_type) :
  Claude.get_historical_stats df month day = Some st ->
  stat_lo t st
  = Series.min (map (column t) (Claude.same_day_data df month day))
  /\ stat_hi t st
     = Series.max (map (column t) (Claude.same_day_data df month day)).
Proof.
  unfold Claude.get_historical_stats.
  destruct (List.length (Claude.same_day_data df month day) =? 0)%nat;
    [discriminate|].
  intros E. injection E as <-. destruct t; split; reflexivity.
Qed.

Lemma le_lt_float (x hi : Q) (v : float) :
  x <= hi -> lt (Fin hi) v = true -> lt (Fin x) v = true.
Proof.
  destruct v as [y|n|]; simpl; try discriminate; [|auto].
  rewrite !Qlt_bool_iff. intros H1 H2. apply Qle_lt_trans with hi; assumption.
Qed.

(** C6.  With the statistics [st] of a month and day: the percentile of a
    value equal to the historical minimum of a column is 0, and the percentile of any value
    strictly above the historical maximum of the column is 100. *)
Theorem percentile_at_extremes
    (df : DataFrame) (month day : Z) (t : temp_type) (st : Claude.Stats) :
  Claude.get_historical_stats df month day = Some st ->
  (forall lo v, stat_lo t st = Fin lo -> v == lo ->
     exists p, Claude.calculate_percentile df month day (Fin v) t
               = Some (Fin p) /\ p == 0)
  /\ (forall v, lt (stat_hi t st) v = true ->
        exists p, Claude.calculate_percentile df month day v t
                  = Some (Fin p) /\ p == 100).
Proof.
  intros Hst. destruct (stats_lo_hi df month day st t Hst) as [Elo Ehi].
  split.
  - intros lo v Hlo Hv. rewrite Elo in Hlo.
    pose proof (Series_min_Fin_nonempty _ _ Hlo) as Hn.
    eexists. split; [apply calculate_percentile_Fin; exact Hn|].
    rewrite count_lt_none.
    + simpl. unfold Qdiv. rewrite Qmult_0_l. reflexivity.
    + intros x Hx. simpl. apply Qlt_bool_false_iff. rewrite Hv.
      apply (Series_min_le _ _ Hlo). exact Hx.
  - intros v Hv. rewrite Ehi in Hv.
    destruct (Series.max (map (column t) (Claude.same_day_data df month day)))
      as [hi|n|] eqn:Hhi; [| |discriminate].
    + pose proof (Series_max_Fin_nonempty _ _ Hhi) as Hn.
      eexists. split; [apply calculate_percentile_Fin; exact Hn|].
      rewrite count_lt_all.
      * pose proof (inject_nat_pos _ Hn) as Hpos.
        field. lra.
      * intros x Hx. apply le_lt_float with hi; [|exact Hv].
        apply (Series_max_ge _ _ Hhi). exact Hx.
    + unfold Series.max in Hhi.
      destruct (dropna _); discriminate.
Qed.

Lemma percentile_at_extremes_witness :
  (exists p, Claude.calculate_percentile Samples.nov13_df 11 13
               (Fin (-2 # 1)) AvgTemp = Some (Fin p) /\ p == 0)
  /\ (exists p, Claude.calculate_percentile Samples.nov13_df 11 13
                  (Fin (7 # 2)) AvgTemp = Some (Fin p) /\ p == 100).
Proof.
  destruct (percentile_at_extremes Samples.nov13_df 11 13 AvgTemp _ eq_refl)
    as [Hlo Hhi].
  split; [apply (Hlo (-2 # 1)); reflexivity | apply Hhi; reflexivity].
Defined.

(** ** The guard and the division *)

Lemma dropna_nil (s : list cell) :
  dropna s = [] <-> forall c, In c s -> c = None.
Proof.
  induction s as [|[q|] s IH]; simpl.
  - split; [intros _ c [] | reflexivity].
  - split; [discriminate|]. intros H.
    specialize (H (Some q) (or_introl eq_refl)). discriminate.
  - rewrite IH. split.
    + intros H c [<-|Hc]; [reflexivity | apply H; exact Hc].
    + intros H c Hc. apply H. right. exact Hc.
Qed.

(** C10.  The guard of [calculate_percentile] looks at the matching rows
    only: it returns [None] exactly when no row matches.  When rows match
    but every one of them misses the queried column, the guard is passed
    with an empty list of values, the quotient is taken with denominator 0
    and the result is NaN, not a percentage.  The result is a finite number
    exactly when some matching row has a value in the queried column. *)
Theorem percentile_division_unguarded
    (df : DataFrame) (month day : Z) (v : float) (t : temp_type) :
  (Claude.calculate_percentile df month day v t = None
   <-> Claude.same_day_data df month day = [])
  /\ (Claude.same_day_data df month day <> [] ->
      (forall r, In r (Claude.same_day_data df month day) ->
                 column t r = None) ->
      List.length
        (dropna (map (column t) (Claude.same_day_data df month day))) = 0%nat
      /\ Claude.calculate_percentile df month day v t = Some NaN)
  /\ ((exists p, Claude.calculate_percentile df month day v t = Some (Fin p))
      <-> exists r, In r (Claude.same_day_data df month day)
                    /\ has_value t r = true).
Proof.
  split; [apply calculate_percentile_None|]. split.
  - intros Hne Hall.
    assert (E : dropna (map (column t) (Claude.same_day_data df month day))
                = []).
    { apply dropna_nil. intros c Hc. apply in_map_iff in Hc.
      destruct Hc as [r [<- Hr]]. apply Hall. exact Hr. }
    rewrite (calculate_percentile_unfold _ _ _ _ _ Hne), E.
    split; reflexivity.
  - split.
    + intros [p Hp].
      destruct (Claude.same_day_data df month day) as [|r0 l] eqn:Esame.
      * rewrite (proj2 (calculate_percentile_None df month day t v) Esame)
          in Hp.
        discriminate.
      * rewrite calculate_percentile_unfold in Hp
          by (rewrite Esame; discriminate).
        rewrite Esame in Hp.
        destruct (dropna (map (column t) (r0 :: l))) as [|q qs] eqn:Ed;
          [discriminate|].
        assert (Hq : In (Some q) (map (column t) (r0 :: l)))
          by (apply dropna_In; rewrite Ed; left; reflexivity).
        apply in_map_iff in Hq. destruct Hq as [r [Hc Hr]].
        exists r. split; [exact Hr|]. unfold has_value. rewrite Hc.
        reflexivity.
    + intros Hex. eexists. apply calculate_percentile_Fin.
      apply temps_nonempty. exact Hex.
Qed.

(** The all-missing case on a concrete table: two rows match, none has an
    average temperature, and the result is NaN. *)
Example calculate_percentile_all_missing :
  Claude.same_day_data Samples.missing_avg_df 11 13 <> []
  /\ Claude.calculate_percentile Samples.missing_avg_df 11 13 (Fin 1) AvgTemp
     = Some NaN
  /\ Claude.get_temperature_description NaN = band 6.
Proof.
  split; [discriminate | split; reflexivity].
Qed.

(** ** The exam-day loop *)

Lemma filter_nil_existsb {A : Type} (f : A -> bool) (l : list A) :
  filter f l = [] <-> existsb f l = false.
Proof.
  induction l as [|a l IH]; simpl; [tauto|].
  destruct (f a); simpl; [split; discriminate | exact IH].
Qed.

(** What the loop does from any accumulator on a calendar whose dates all
    parse: it appends, in order, one entry per item that has a record. *)
Lemma suneung_loop_spec (calendar : Calendar) (df : DataFrame) :
  well_formed calendar ->
  forall acc, exists out,
    Claude.suneung_loop calendar df acc = Some (acc ++ out)
    /\ map entry_key out = filter (has_record df) calendar.
Proof.
  induction calendar as [|[y s] rest IH]; intros Hwf acc.
  - exists []. rewrite app_nil_r. split; reflexivity.
  - assert (Hrest : well_formed rest)
      by (intros item Hin; apply Hwf; right; exact Hin).
    pose proof (Hwf (y, s) (or_introl eq_refl)) as Hs. simpl in Hs.
    cbn [Claude.suneung_loop filter]. unfold has_record at 1. cbn [snd].
    destruct (to_datetime s) as [d|]; [clear Hs | contradiction].
    destruct (filter (fun r => Timestamp_eqb (date r) d) df)
      as [|row rows] eqn:Ef.
    + apply filter_nil_existsb in Ef. rewrite Ef.
      apply (IH Hrest acc).
    + assert (Ex : existsb (fun r => Timestamp_eqb (date r) d) df = true).
      { destruct (existsb _ df) eqn:E; [reflexivity|].
        apply filter_nil_existsb in E. congruence. }
      rewrite Ex.
      destruct (IH Hrest (acc ++ [Claude.make_entry df y s d row]))
        as [out [Hout Hkeys]].
      exists (Claude.make_entry df y s d row :: out).
      rewrite Hout, <- app_assoc. split; [reflexivity|].
      cbn [map]. rewrite Hkeys. reflexivity.
Qed.

(** C4.  On a calendar whose date strings all parse, the loop returns one
    entry per calendar item whose date has a row in the table, in calendar
    order (the entries' year and date string are exactly those items), and
    nothing for the other items: the number of entries is the number of
    items minus the number of items without a record. *)
Theorem suneung_data_skips_unmatched (calendar : Calendar) (df : DataFrame) :
  well_formed calendar ->
  exists out,
    Claude.suneung_data calendar df = Some out
    /\ map entry_key out = filter (has_record df) calendar
    /\ List.length out
       = (List.length calendar
          - List.length (filter (fun item => negb (has_record df item))
                                calendar))%nat.
Proof.
  intros Hwf.
  destruct (suneung_loop_spec calendar df Hwf []) as [out [Hout Hkeys]].
  exists out. split; [exact Hout|]. split; [exact Hkeys|].
  rewrite <- (length_map entry_key), Hkeys.
  rewrite <- (filter_length (has_record df) calendar). lia.
Qed.

Lemma suneung_data_skips_unmatched_witness :
  exists out,
    Claude.suneung_data Samples.short_calendar Samples.nov13_df = Some out
    /\ map entry_key out
       = filter (has_record Samples.nov13_df) Samples.short_calendar
    /\ List.length out
       = (List.length Samples.short_calendar
          - List.length
              (filter (fun item => negb (has_record Samples.nov13_df item))
                      Samples.short_calendar))%nat.
Proof.
  apply suneung_data_skips_unmatched.
  intros item Hin. simpl in Hin.
  destruct Hin as [<-|[<-|[<-|[]]]]; discriminate.
Defined.

(** The sample run: two of the three items have a record. *)
Example suneung_data_short_calendar :
  option_map (map entry_key)
             (Claude.suneung_data Samples.short_calendar Samples.nov13_df)
  = Some [ (2002, "2001-11-13"); (2004, "2003-11-13") ]%Z%string.
Proof. vm_compute. reflexivity. Qed.

(** Both literal calendars are well formed. *)
Lemma SUNEUNG_DATES_well_formed : well_formed Claude.SUNEUNG_DATES.
Proof.
  assert (H : forallb (fun item => match to_datetime (snd item) with
                                   | Some _ => true
                                   | None => false
                                   end) Claude.SUNEUNG_DATES = true)
    by (vm_compute; reflexivity).
  intros item Hin. rewrite forallb_forall in H. specialize (H item Hin).
  destruct (to_datetime (snd item)); [discriminate | discriminate H].
Qed.

(** ** The percentile against the deviation from the mean *)

Lemma percent_below_100 (c n : nat) :
  (c < n)%nat ->
  inject_Z (Z.of_nat c) / inject_Z (Z.of_nat n) * 100 < 100.
Proof.
  intros Hc.
  assert (Hn' : 0 < inject_Z (Z.of_nat n)) by (apply inject_nat_pos; lia).
  assert (Hlt : inject_Z (Z.of_nat c) < inject_Z (Z.of_nat n))
    by (rewrite <- Zlt_Qlt; lia).
  assert (H : inject_Z (Z.of_nat c) / inject_Z (Z.of_nat n) < 1)
    by (apply Qlt_shift_div_r; lra).
  lra.
Qed.


Lemma Timestamp_eqb_eq (a b : Timestamp) :
  Timestamp_eqb a b = true <-> a = b.
Proof.
  unfold Timestamp_eqb. rewrite !andb_true_iff, !Z.eqb_eq.
  destruct a, b; simpl. split.
  - intros [[-> ->] ->]. reflexivity.
  - intros H. injection H as -> -> ->. auto.
Qed.

(** Every entry the loop returns comes from a calendar item whose date
    string parses and from a row of the table with that date. *)
Lemma suneung_loop_origin (calendar : Calendar) (df : DataFrame) :
  forall acc out,
    Claude.suneung_loop calendar df acc = Some out ->
    forall e, In e out ->
      In e acc
      \/ exists y s d row,
           In (y, s) calendar /\ to_datetime s = Some d
           /\ In row df /\ date row = d
           /\ e = Claude.make_entry df y s d row.
Proof.
  induction calendar as [|[y s] rest IH]; intros acc out Hrun e He.
  - simpl in Hrun. injection Hrun as <-. left. exact He.
  - cbn [Claude.suneung_loop] in Hrun.
    destruct (to_datetime s) as [d|] eqn:Ed; [|discriminate].
    assert (Hlift : (exists y' s' d' row,
                        In (y', s') rest /\ to_datetime s' = Some d'
                        /\ In row df /\ date row = d'
                        /\ e = Claude.make_entry df y' s' d' row) ->
                    exists y' s' d' row,
                      In (y', s') ((y, s) :: rest)
                      /\ to_datetime s' = Some d'
                      /\ In row df /\ date row = d'
                      /\ e = Claude.make_entry df y' s' d' row).
    { intros [y' [s' [d' [row [H1 H2]]]]]. exists y', s', d', row.
      split; [right; exact H1 | exact H2]. }
    destruct (filter (fun r => Timestamp_eqb (date r) d) df)
      as [|row rows] eqn:Ef.
    + destruct (IH _ _ Hrun e He) as [Hacc|Hnew];
        [left; exact Hacc | right; apply Hlift; exact Hnew].
    + destruct (IH _ _ Hrun e He) as [Hacc|Hnew];
        [|right; apply Hlift; exact Hnew].
      apply in_app_or in Hacc. destruct Hacc as [Hacc|[<-|[]]];
        [left; exact Hacc|].
      right. exists y, s, d, row.
      assert (Hrow : In row (filter (fun r => Timestamp_eqb (date r) d) df))
        by (rewrite Ef; left; reflexivity).
      apply filter_In in Hrow. destruct Hrow as [Hin Hd].
      apply Timestamp_eqb_eq in Hd.
      split; [left; reflexivity|]. repeat split; assumption.
Qed.

(** Which side of 50 a share in percent falls on. *)
Lemma percent_vs_half (c n : nat) :
  (0 < n)%nat ->
  (50 < inject_Z (Z.of_nat c) / inject_Z (Z.of_nat n) * 100
   <-> (n < 2 * c)%nat)
  /\ (inject_Z (Z.of_nat c) / inject_Z (Z.of_nat n) * 100 < 50
      <-> (2 * c < n)%nat)
  /\ (inject_Z (Z.of_nat c) / inject_Z (Z.of_nat n) * 100 == 50
      <-> (2 * c = n)%nat).
Proof.
  intros Hn. pose proof (inject_nat_pos _ Hn) as Hb.
  assert (Hlt : (n < 2 * c)%nat
                <-> inject_Z (Z.of_nat n) < 2 * inject_Z (Z.of_nat c)).
  { change 2 with (inject_Z 2). rewrite <- inject_Z_mult, <- Zlt_Qlt. lia. }
  assert (Hgt : (2 * c < n)%nat
                <-> 2 * inject_Z (Z.of_nat c) < inject_Z (Z.of_nat n)).
  { change 2 with (inject_Z 2). rewrite <- inject_Z_mult, <- Zlt_Qlt. lia. }
  assert (Heq : (2 * c = n)%nat
                <-> 2 * inject_Z (Z.of_nat c) == inject_Z (Z.of_nat n)).
  { change 2 with (inject_Z 2). rewrite <- inject_Z_mult, inject_Z_injective.
    lia. }
  rewrite Hlt, Hgt, Heq.
  set (a := inject_Z (Z.of_nat c)) in *.
  set (b := inject_Z (Z.of_nat n)) in *.
  assert (Hq : b * (a / b) == a) by (apply Qmult_div_r; lra).
  set (q := a / b) in *.
  repeat split; intros H; nra.
Qed.

(** C7, as the code has it.  For every entry of [suneung_data] whose row
    has an average temperature [x]: the deviation is [x] minus the entry's
    historical mean, and the percentile is a finite number that is above 50
    exactly when more than half of the values of that month and day are
    strictly below [x], below 50 exactly when fewer than half are, and 50
    exactly when half are.  The side of 50 is decided by the other years'
    values one by one, not by their mean, so the sign of the deviation
    does not follow from it. *)
Theorem percentile_side_of_50
    (calendar : Calendar) (df : DataFrame) (out : list Claude.Entry)
    (e : Claude.Entry) (x : Q) :
  Claude.suneung_data calendar df = Some out ->
  In e out ->
  Claude.e_avg_temp e = Some x ->
  exists d m p,
    to_datetime (Claude.exam_date e) = Some d
    /\ Claude.hist_mean e = Some m
    /\ Claude.deviation e = Some (sub (Fin x) m)
    /\ Claude.percentile e = Some (Fin p)
    /\ (50 < p
        <-> (List.length
               (filter (has_value AvgTemp)
                       (Claude.same_day_data df (month d) (day d)))
             < 2 * List.length
                     (filter (value_below AvgTemp (Fin x))
                             (Claude.same_day_data df (month d) (day d))))%nat)
    /\ (p < 50
        <-> (2 * List.length
                   (filter (value_below AvgTemp (Fin x))
                           (Claude.same_day_data df (month d) (day d)))
             < List.length
                 (filter (has_value AvgTemp)
                         (Claude.same_day_data df (month d) (day d))))%nat)
    /\ (p == 50
        <-> (2 * List.length
                   (filter (value_below AvgTemp (Fin x))
                           (Claude.same_day_data df (month d) (day d)))
             = List.length
                 (filter (has_value AvgTemp)
                         (Claude.same_day_data df (month d) (day d))))%nat).
Proof.
  intros Hrun He Hx.
  destruct (suneung_loop_origin _ _ _ _ Hrun e He) as [[]|Hmk].
  destruct Hmk as [y [s [d [row [_ [Hd [Hrow [Hdate ->]]]]]]]].
  assert (Hsame : In row (Claude.same_day_data df (month d) (day d)))
    by (apply same_day_data_In; subst d; auto).
  unfold Claude.make_entry in *.
  cbn [Claude.e_avg_temp Claude.exam_date Claude.hist_mean Claude.deviation
       Claude.percentile] in *.
  destruct (Claude.get_historical_stats df (month d) (day d))
    as [st|] eqn:Est.
  2:{ apply get_historical_stats_None in Est. rewrite Est in Hsame.
      destruct Hsame. }
  assert (Hn : (0 < List.length
                  (dropna (map (column AvgTemp)
                     (Claude.same_day_data df (month d) (day d)))))%nat).
  { apply dropna_nonempty with x. rewrite <- Hx.
    apply (in_map (column AvgTemp)). exact Hsame. }
  exists d, (Claude.avg_mean st). eexists.
  split; [exact Hd|]. split; [reflexivity|].
  rewrite Hx. cbn [option_map of_cell]. split; [reflexivity|].
  split; [apply calculate_percentile_Fin; exact Hn|].
  rewrite count_lt_rows, length_dropna_rows.
  rewrite length_dropna_rows in Hn.
  apply percent_vs_half. exact Hn.
Qed.

Lemma percentile_side_of_50_witness :
  exists e d m p,
    Claude.suneung_data Samples.skewed_calendar Samples.skewed_df = Some [e]
    /\ to_datetime (Claude.exam_date e) = Some d
    /\ Claude.hist_mean e = Some m
    /\ Claude.deviation e = Some (sub (Fin (3 # 1)) m)
    /\ Claude.percentile e = Some (Fin p)
    /\ (50 < p
        <-> (List.length
               (filter (has_value AvgTemp)
                       (Claude.same_day_data Samples.skewed_df
                                             (month d) (day d)))
             < 2 * List.length
                     (filter (value_below AvgTemp (Fin (3 # 1)))
                             (Claude.same_day_data Samples.skewed_df
                                                   (month d) (day d))))%nat).
Proof.
  destruct (percentile_side_of_50 Samples.skewed_calendar Samples.skewed_df
              _ _ (3 # 1) eq_refl (or_introl eq_refl) eq_refl)
    as [d [m [p [Hd [Hm [Hdev [Hp [Habove _]]]]]]]].
  eexists. exists d, m, p.
  split; [reflexivity|]. split; [exact Hd|]. split; [exact Hm|].
  split; [exact Hdev|]. split; [exact Hp | exact Habove].
Defined.

(** The sign agreement at threshold 50 fails on a skewed distribution:
    with the values 0, 1, 2, 3, 100 the entry of the value 3 has percentile
    60, above 50, and deviation 3 - 21.2 = -18.2, below 0. *)
Lemma sign_agreement_fails :
  exists e,
    Claude.suneung_data Samples.skewed_calendar Samples.skewed_df = Some [e]
    /\ ~ sign_agrees e.
Proof.
  eexists. split; [vm_compute; reflexivity|].
  intros H. specialize (H _ _ eq_refl eq_refl).
  assert (Hne : ~ 300 # 5 == 50) by (unfold Qeq; simpl; lia).
  apply H in Hne. destruct Hne as [Hpos _].
  assert (H50 : 50 < 300 # 5) by (unfold Qlt; simpl; lia).
  apply Hpos in H50. revert H50. unfold Qlt. simpl. lia.
Qed.

(** The other direction fails as well: with the values 0, 10, 11 the entry
    of the value 10 has deviation 10 - 7 = 3, above 0, and percentile
    33.3, below 50. *)
Example converse_direction_broken :
  exists e,
    Claude.suneung_data Samples.lopsided_calendar Samples.lopsided_df
    = Some [e]
    /\ ~ sign_agrees e.
Proof.
  eexists. split; [vm_compute; reflexivity|].
  intros H. specialize (H _ _ eq_refl eq_refl).
  assert (Hne : ~ 100 # 3 == 50) by (unfold Qeq; simpl; lia).
  apply H in Hne. destruct Hne as [_ Hneg].
  assert (Hd : 0 < 9 # 3) by (unfold Qlt; simpl; lia).
  apply Hneg in Hd. revert Hd. unfold Qlt. simpl. lia.
Qed.

(** ** The descending minimum rank of the first dashboard *)

Lemma insert_desc_In (x y : Q) (l : list Q) :
  In y (Gemini.insert_desc x l) <-> y = x \/ In y l.
Proof.
  induction l as [|a l IH]; simpl.
  - intuition.
  - destruct (Qle_bool a x); simpl; [intuition|].
    rewrite IH. intuition.
Qed.

Lemma insert_desc_sorted (x : Q) (l : list Q) :
  Descending l -> Descending (Gemini.insert_desc x l).
Proof.
  unfold Descending. induction l as [|a l IH]; intros Hs; simpl.
  - constructor; [constructor | constructor].
  - destruct (Qle_bool a x) eqn:E.
    + apply Qle_bool_iff in E. constructor; [exact Hs|].
      constructor; [exact E|].
      apply StronglySorted_inv in Hs. destruct Hs as [_ Hall].
      rewrite Forall_forall in *. intros y Hy.
      apply Qle_trans with a; [apply Hall; exact Hy | exact E].
    + apply Qle_bool_false_iff in E.
      apply StronglySorted_inv in Hs. destruct Hs as [Hl Hall].
      constructor; [apply IH; exact Hl|].
      rewrite Forall_forall in *. intros y Hy.
      apply insert_desc_In in Hy. destruct Hy as [->|Hy].
      * apply Qlt_le_weak. exact E.
      * apply Hall. exact Hy.
Qed.

Lemma sort_desc_sorted (l : list Q) : Descending (Gemini.sort_desc l).
Proof.
  induction l as [|a l IH]; simpl.
  - constructor.
  - apply insert_desc_sorted. exact IH.
Qed.

Lemma sort_desc_In (y : Q) (l : list Q) :
  In y (Gemini.sort_desc l) <-> In y l.
Proof.
  induction l as [|a l IH]; simpl; [tauto|].
  rewrite insert_desc_In, IH. intuition.
Qed.

Lemma above_insert_desc (v x : Q) (l : list Q) :
  above v (Gemini.insert_desc x l) = above v (x :: l).
Proof.
  unfold above. induction l as [|a l IH]; [reflexivity|].
  cbn [Gemini.insert_desc]. destruct (Qle_bool a x); [reflexivity|].
  cbn [filter] in *.
  destruct (Qlt_bool v a), (Qlt_bool v x); cbn [List.length] in *; lia.
Qed.

Lemma above_sort_desc (v : Q) (l : list Q) :
  above v (Gemini.sort_desc l) = above v l.
Proof.
  induction l as [|a l IH]; [reflexivity|].
  cbn [Gemini.sort_desc fold_right]. rewrite above_insert_desc.
  fold (Gemini.sort_desc l). unfold above in *. cbn [filter].
  destruct (Qlt_bool v a); cbn [List.length]; rewrite IH; reflexivity.
Qed.

Lemma above_none (v : Q) (l : list Q) :
  (forall y, In y l -> y <= v) -> above v l = 0%nat.
Proof.
  unfold above. induction l as [|a l IH]; intros H; [reflexivity|].
  cbn [filter].
  rewrite (proj2 (Qlt_bool_false_iff v a) (H a (or_introl eq_refl))).
  apply IH. intros y Hy. apply H. right. exact Hy.
Qed.

(** In a descending list that holds [v], the ties of [v] start after
    exactly the values strictly above [v]. *)
Lemma first_pos_sorted (v : Q) (l : list Q) :
  Descending l ->
  (exists x, In x l /\ x == v) ->
  Gemini.first_pos v l = above v l.
Proof.
  unfold Descending. induction l as [|a l IH]; intros Hs [x [Hx Exv]].
  - destruct Hx.
  - apply StronglySorted_inv in Hs. destruct Hs as [Hl Hall].
    rewrite Forall_forall in Hall.
    cbn [Gemini.first_pos]. destruct (Qeq_bool a v) eqn:Ea.
    + apply Qeq_bool_iff in Ea. symmetry. apply above_none.
      intros y [<-|Hy].
      * rewrite Ea. apply Qle_refl.
      * rewrite <- Ea. apply Hall. exact Hy.
    + assert (Hne : ~ a == v).
      { intros E. apply Qeq_bool_iff in E. congruence. }
      destruct Hx as [<-|Hx]; [contradiction|].
      assert (Hva : v < a).
      { apply Qnot_le_lt. intros Hle. apply Hne.
        apply Qle_antisym; [exact Hle|].
        rewrite <- Exv. apply Hall. exact Hx. }
      unfold above. cbn [filter].
      rewrite (proj2 (Qlt_bool_iff v a) Hva). cbn [List.length]. f_equal.
      apply IH; [exact Hl|]. exists x. split; assumption.
Qed.

Lemma first_pos_Qeq (v w : Q) (l : list Q) :
  w == v -> Gemini.first_pos w l = Gemini.first_pos v l.
Proof.
  intros E. induction l as [|a l IH]; [reflexivity|].
  cbn [Gemini.first_pos].
  assert (Eb : Qeq_bool a w = Qeq_bool a v).
  { destruct (Qeq_bool a v) eqn:Ev.
    - apply Qeq_bool_iff in Ev. apply Qeq_bool_iff. rewrite Ev, E.
      reflexivity.
    - destruct (Qeq_bool a w) eqn:Ew; [|reflexivity].
      apply Qeq_bool_iff in Ew. rewrite E in Ew.
      apply Qeq_bool_iff in Ew. congruence. }
  rewrite Eb, IH. reflexivity.
Qed.

Lemma above_rows (v : Q) (rows : list Row) :
  above v (dropna (map avg_temp rows))
  = List.length (filter (value_above AvgTemp v) rows).
Proof.
  unfold above, value_above. induction rows as [|r rows IH]; [reflexivity|].
  cbn [map dropna filter column].
  destruct (avg_temp r) as [x|]; [|exact IH].
  cbn [filter]. destruct (Qlt_bool v x); cbn [List.length]; rewrite IH;
    reflexivity.
Qed.

Lemma rank_nth (s : list cell) (i : nat) (c : cell) :
  nth_error s i = Some c ->
  nth_error (Gemini.rank s) i
  = Some match c with
         | Some v =>
             of_nat (1 + Gemini.first_pos v (Gemini.sort_desc (dropna s)))
         | None => NaN
         end.
Proof.
  intros H. unfold Gemini.rank. cbv zeta.
  rewrite (map_nth_error _ _ _ H). reflexivity.
Qed.

(** C8.  In the same-day table of the first dashboard, a row with an
    average temperature [v] gets rank 1 + (number of rows of that table
    whose average temperature is strictly above [v]), and every row of the
    table with an equal average temperature gets the same rank. *)
Theorem rank_is_competition_rank
    (df : DataFrame) (selected_date : Timestamp) (i : nat) (r : Row) (v : Q) :
  nth_error (Gemini.history_df df selected_date) i = Some r ->
  avg_temp r = Some v ->
  nth_error
    (Gemini.rank (map avg_temp (Gemini.history_df df selected_date))) i
  = Some (of_nat
            (1 + List.length
                   (filter (value_above AvgTemp v)
                           (Gemini.history_df df selected_date))))
  /\ (forall j r' w,
         nth_error (Gemini.history_df df selected_date) j = Some r' ->
         avg_temp r' = Some w ->
         w == v ->
         nth_error
           (Gemini.rank (map avg_temp (Gemini.history_df df selected_date))) j
         = nth_error
             (Gemini.rank (map avg_temp (Gemini.history_df df selected_date)))
             i).
Proof.
  intros Hi Hv.
  set (rows := Gemini.history_df df selected_date) in *.
  assert (Hnth : forall k rk x,
             nth_error rows k = Some rk -> avg_temp rk = Some x ->
             nth_error (Gemini.rank (map avg_temp rows)) k
             = Some (of_nat (1 + Gemini.first_pos x
                                   (Gemini.sort_desc
                                      (dropna (map avg_temp rows)))))).
  { intros k rk x Hk Hx.
    rewrite (rank_nth _ k (Some x)); [reflexivity|].
    rewrite nth_error_map, Hk. simpl. rewrite Hx. reflexivity. }
  split.
  - rewrite (Hnth i r v Hi Hv). do 3 f_equal.
    rewrite first_pos_sorted.
    + rewrite above_sort_desc. apply above_rows.
    + apply sort_desc_sorted.
    + exists v. split; [|reflexivity].
      apply sort_desc_In, dropna_In. rewrite <- Hv.
      apply in_map. apply nth_error_In with i. exact Hi.
  - intros j r' w Hj Hw E.
    rewrite (Hnth i r v Hi Hv), (Hnth j r' w Hj Hw).
    rewrite (first_pos_Qeq v w _ E). reflexivity.
Qed.

Lemma rank_is_competition_rank_witness :
  nth_error
    (Gemini.rank
       (map avg_temp
            (Gemini.history_df Samples.ties_df (mkTimestamp 2003 11 13)))) 0
  = Some (of_nat
            (1 + List.length
                   (filter (value_above AvgTemp (5 # 1))
                           (Gemini.history_df Samples.ties_df
                                              (mkTimestamp 2003 11 13)))))
  /\ nth_error
       (Gemini.rank
          (map avg_temp
               (Gemini.history_df Samples.ties_df (mkTimestamp 2003 11 13))))
       2
     = nth_error
         (Gemini.rank
            (map avg_temp
                 (Gemini.history_df Samples.ties_df
                                    (mkTimestamp 2003 11 13)))) 0.
Proof.
  destruct (rank_is_competition_rank Samples.ties_df (mkTimestamp 2003 11 13)
              0 (Samples.row 2001 11 13 (5 # 1) (1 # 1) (8 # 1)) (5 # 1)
              eq_refl eq_refl) as [Hrank Hties].
  split; [exact Hrank|].
  apply (Hties 2%nat (Samples.row 2003 11 13 (10 # 2) (0 # 1) (9 # 1))
               (10 # 2) eq_refl eq_refl).
  reflexivity.
Defined.

(** The ranks of the tied sample: both rows at 5 degrees are third, the
    row without a value has no rank, and the selected year 2003 is shown
    as third of five. *)
Example rank_ties_df :
  Gemini.rank
    (map avg_temp (Gemini.history_df Samples.ties_df (mkTimestamp 2003 11 13)))
  = [of_nat 3; of_nat 2; of_nat 3; NaN; of_nat 1]
  /\ Gemini.cur_rank Samples.ties_df (mkTimestamp 2003 11 13)
     = Some (of_nat 3, 5%nat).
Proof. split; vm_compute; reflexivity. Qed.

(** A row without a value keeps a NaN rank. *)
Lemma rank_missing (s : list cell) (i : nat) :
  nth_error s i = Some None -> nth_error (Gemini.rank s) i = Some NaN.
Proof. intros H. apply (rank_nth s i None H). Qed.

(** ** The two calendars *)

Lemma lookup_In (calendar : Calendar) (key : Z) (v : string) :
  lookup calendar key = Some v -> In (key, v) calendar.
Proof.
  induction calendar as [|[k s] rest IH]; simpl; [discriminate|].
  destruct (k =? key)%Z eqn:E.
  - apply Z.eqb_eq in E. intros H. injection H as <-. left. congruence.
  - intros H. right. apply IH. exact H.
Qed.

(** C9.  The two literal calendars differ.  Under the label 1994 the first
    dashboard has 1994-11-23 and the second 1993-11-16; in fact no label
    they share carries the same date in both, because the second dashboard
    files every date of the first under the following year's label. *)
Theorem calendars_disagree :
  lookup Gemini.suneung_dates 1994 = Some "1994-11-23"%string
  /\ lookup Claude.SUNEUNG_DATES 1994 = Some "1993-11-16"%string
  /\ Gemini.suneung_dates <> Claude.SUNEUNG_DATES
  /\ (exists y s1 s2,
        lookup Gemini.suneung_dates y = Some s1
        /\ lookup Claude.SUNEUNG_DATES y = Some s2
        /\ s1 <> s2
        /\ (forall d1 d2, to_datetime s1 = Some d1 ->
                          to_datetime s2 = Some d2 -> d1 <> d2))
  /\ (forall y s1 s2,
        lookup Gemini.suneung_dates y = Some s1 ->
        lookup Claude.SUNEUNG_DATES y = Some s2 ->
        s1 <> s2)
  /\ (forall y s,
        lookup Gemini.suneung_dates y = Some s ->
        lookup Claude.SUNEUNG_DATES (y + 1) = Some s).
Proof.
  split; [reflexivity|]. split; [reflexivity|]. split; [discriminate|].
  split; [|split].
  - exists 1994%Z, "1994-11-23"%string, "1993-11-16"%string.
    split; [reflexivity|]. split; [reflexivity|]. split; [discriminate|].
    intros d1 d2 H1 H2. vm_compute in H1, H2.
    injection H1 as <-. injection H2 as <-. discriminate.
  - assert (H : forallb
                  (fun item =>
                     match lookup Claude.SUNEUNG_DATES (fst item) with
                     | Some s2 => negb (String.eqb (snd item) s2)
                     | None => true
                     end) Gemini.suneung_dates = true)
      by (vm_compute; reflexivity).
    rewrite forallb_forall in H.
    intros y s1 s2 H1 H2 E. apply lookup_In in H1.
    specialize (H _ H1). cbn [fst snd] in H. rewrite H2 in H.
    apply negb_true_iff in H. apply String.eqb_neq in H. contradiction.
  - assert (H : forallb
                  (fun item =>
                     match lookup Claude.SUNEUNG_DATES (fst item + 1) with
                     | Some s2 => String.eqb (snd item) s2
                     | None => false
                     end) Gemini.suneung_dates = true)
      by (vm_compute; reflexivity).
    rewrite forallb_forall in H.
    intros y s H1. apply lookup_In in H1.
    specialize (H _ H1). cbn [fst snd] in H.
    destruct (lookup Claude.SUNEUNG_DATES (y + 1)) as [s2|];
      [|discriminate].
    apply String.eqb_eq in H. congruence.
Qed.

(** * Further properties of the code *)

(** ** The statistics record *)

Lemma insert_by_year_perm (r : Row) (rs : list Row) :
  Permutation (Series.insert_by_year r rs) (r :: rs).
Proof.
  induction rs as [|x rest IH]; simpl; [reflexivity|].
  destruct (year (date r) <? year (date x))%Z; [reflexivity|].
  rewrite IH. apply perm_swap.
Qed.

Lemma sort_by_year_perm (rs : list Row) :
  Permutation (Series.sort_by_year rs) rs.
Proof.
  unfold Series.sort_by_year.
  rewrite (Permutation_rev rs) at 2.
  induction (rev rs) as [|x l IH]; simpl; [reflexivity|].
  rewrite insert_by_year_perm. constructor. exact IH.
Qed.

Lemma insert_by_year_sorted (r : Row) (rs : list Row) :
  StronglySorted by_year rs -> StronglySorted by_year (Series.insert_by_year r rs).
Proof.
  induction rs as [|x rest IH]; intros Hs; simpl.
  - repeat constructor.
  - apply StronglySorted_inv in Hs. destruct Hs as [Hrest Hall].
    destruct (year (date r) <? year (date x))%Z eqn:E.
    + apply Z.ltb_lt in E. constructor.
      * constructor; assumption.
      * constructor; [unfold by_year; lia|].
        rewrite Forall_forall in *. intros y Hy.
        specialize (Hall y Hy). unfold by_year in *. lia.
    + apply Z.ltb_ge in E. constructor; [apply IH; exact Hrest|].
      rewrite Forall_forall in *. intros y Hy.
      apply (Permutation_in _ (insert_by_year_perm r rest)) in Hy.
      destruct Hy as [<-|Hy]; [exact E | apply Hall; exact Hy].
Qed.

Lemma sort_by_year_sorted (rs : list Row) :
  StronglySorted by_year (Series.sort_by_year rs).
Proof.
  unfold Series.sort_by_year.
  induction (rev rs) as [|x l IH]; simpl; [constructor|].
  apply insert_by_year_sorted. exact IH.
Qed.

Lemma stats_inv (df : DataFrame) (month day : Z) (st : Claude.Stats) :
  Claude.get_historical_stats df month day = Some st ->
  Claude.same_day_data df month day <> []
  /\ Claude.count st = List.length (Claude.same_day_data df month day)
  /\ Claude.history st
     = Series.sort_by_year (Claude.same_day_data df month day)
  /\ forall t,
       stat_mean t st
       = Series.mean (map (column t) (Claude.same_day_data df month day)).
Proof.
  unfold Claude.get_historical_stats.
  destruct (Claude.same_day_data df month day) as [|r l] eqn:E;
    [discriminate|].
  cbn [List.length Nat.eqb]. intros H. injection H as <-.
  split; [discriminate|]. split; [reflexivity|]. split; [reflexivity|].
  intros t. destruct t; reflexivity.
Qed.

(** X1.  The [history] table of the statistics holds exactly the rows of
    the month and day (each as often as in the table), in non-decreasing
    order of year, and [count] is their number, at least one. *)
Theorem stats_history_sorted
    (df : DataFrame) (month day : Z) (st : Claude.Stats) :
  Claude.get_historical_stats df month day = Some st ->
  Permutation (Claude.history st) (Claude.same_day_data df month day)
  /\ StronglySorted by_year (Claude.history st)
  /\ Claude.count st = List.length (Claude.history st)
  /\ (1 <= Claude.count st)%nat.
Proof.
  intros Hst. destruct (stats_inv _ _ _ _ Hst) as [Hne [Hc [Hh _]]].
  rewrite Hh, Hc. split; [apply sort_by_year_perm|].
  split; [apply sort_by_year_sorted|].
  split; [symmetry; apply Permutation_length, sort_by_year_perm|].
  destruct (Claude.same_day_data df month day); [contradiction|simpl; lia].
Qed.

Lemma stats_history_sorted_witness :
  exists st,
    Claude.get_historical_stats (rev Samples.nov13_df) 11 13 = Some st
    /\ Permutation (Claude.history st)
                   (Claude.same_day_data (rev Samples.nov13_df) 11 13)
    /\ StronglySorted by_year (Claude.history st)
    /\ Claude.count st = List.length (Claude.history st)
    /\ (1 <= Claude.count st)%nat.
Proof.
  eexists. split; [reflexivity|].
  apply (stats_history_sorted (rev Samples.nov13_df) 11 13 _ eq_refl).
Defined.

Lemma fold_Qmin_In (rest : list Q) (x : Q) :
  In (fold_left Qmin rest x) (x :: rest).
Proof.
  revert x. induction rest as [|a rest IH]; intros x; [left; reflexivity|].
  cbn [fold_left]. destruct (IH (Qmin x a)) as [H|H].
  - rewrite <- H. unfold Qmin, GenericMinMax.gmin.
    destruct (x ?= a); [left | left | right; left]; reflexivity.
  - right. right. exact H.
Qed.

Lemma fold_Qmax_In (rest : list Q) (x : Q) :
  In (fold_left Qmax rest x) (x :: rest).
Proof.
  revert x. induction rest as [|a rest IH]; intros x; [left; reflexivity|].
  cbn [fold_left]. destruct (IH (Qmax x a)) as [H|H].
  - rewrite <- H. unfold Qmax, GenericMinMax.gmax.
    destruct (x ?= a); [left | right; left | left]; reflexivity.
  - right. right. exact H.
Qed.

Lemma column_value_row (t : temp_type) (rows : list Row) (x : Q) :
  In x (dropna (map (column t) rows)) ->
  exists r, In r rows /\ column t r = Some x.
Proof.
  intros H. apply dropna_In, in_map_iff in H.
  destruct H as [r [Hc Hr]]. exists r. split; assumption.
Qed.

(** X3.  A finite historical minimum (maximum) of a column is the value of
    some row of that month and day, and no row of that month and day has a
    smaller (larger) value in the column. *)
Theorem stats_extremes_attained
    (df : DataFrame) (month day : Z) (st : Claude.Stats) (t : temp_type) :
  Claude.get_historical_stats df month day = Some st ->
  (forall lo, stat_lo t st = Fin lo ->
     (exists r, In r (Claude.same_day_data df month day)
                /\ column t r = Some lo)
     /\ forall r x, In r (Claude.same_day_data df month day) ->
                    column t r = Some x -> lo <= x)
  /\ (forall hi, stat_hi t st = Fin hi ->
        (exists r, In r (Claude.same_day_data df month day)
                   /\ column t r = Some hi)
        /\ forall r x, In r (Claude.same_day_data df month day) ->
                       column t r = Some x -> x <= hi).
Proof.
  intros Hst. destruct (stats_lo_hi _ _ _ _ t Hst) as [Elo Ehi].
  rewrite Elo, Ehi. split.
  - intros lo Hlo. split.
    + apply column_value_row. unfold Series.min in Hlo.
      destruct (dropna _) as [|a rest]; [discriminate|].
      injection Hlo as <-. apply fold_Qmin_In.
    + intros r x Hr Hx. apply (Series_min_le _ _ Hlo).
      apply dropna_In. rewrite <- Hx. apply in_map. exact Hr.
  - intros hi Hhi. split.
    + apply column_value_row. unfold Series.max in Hhi.
      destruct (dropna _) as [|a rest]; [discriminate|].
      injection Hhi as <-. apply fold_Qmax_In.
    + intros r x Hr Hx. apply (Series_max_ge _ _ Hhi).
      apply dropna_In. rewrite <- Hx. apply in_map. exact Hr.
Qed.

Lemma stats_extremes_attained_witness :
  exists st,
    Claude.get_historical_stats Samples.nov13_df 11 13 = Some st
    /\ (exists r, In r (Claude.same_day_data Samples.nov13_df 11 13)
                  /\ column MinTemp r = Some (-5 # 1))
    /\ (exists r, In r (Claude.same_day_data Samples.nov13_df 11 13)
                  /\ column MinTemp r = Some (0 # 1)).
Proof.
  eexists. split; [reflexivity|].
  destruct (stats_extremes_attained Samples.nov13_df 11 13 _ MinTemp eq_refl)
    as [Hlo Hhi].
  split; [apply (Hlo (-5 # 1)); reflexivity
         | apply (Hhi (0 # 1)); reflexivity].
Defined.

(** ** The percentile of a value of the table itself *)

Lemma filter_length_lt {A : Type} (f : A -> bool) (l : list A) (x : A) :
  In x l -> f x = false -> (List.length (filter f l) < List.length l)%nat.
Proof.
  induction l as [|a l IH]; intros Hin Hf; [destruct Hin|].
  cbn [filter]. pose proof (filter_length_le f l) as Hle.
  destruct Hin as [->|Hin].
  - rewrite Hf. simpl. lia.
  - specialize (IH Hin Hf). destruct (f a); simpl; lia.
Qed.

Lemma count_lt_own (temps : list Q) (x : Q) :
  In x temps -> (count_lt temps (Fin x) < List.length temps)%nat.
Proof.
  intros Hin. unfold count_lt.
  apply filter_length_lt with x; [exact Hin|].
  simpl. apply Qlt_bool_false_iff. apply Qle_refl.
Qed.

Lemma valued_length (df : DataFrame) (month day : Z) (t : temp_type) :
  valued df month day t
  = List.length (dropna (map (column t) (Claude.same_day_data df month day))).
Proof. unfold valued. symmetry. apply length_dropna_rows. Qed.

Lemma own_value_bound_aux
    (df : DataFrame) (month day : Z) (t : temp_type) (r : Row) (x : Q) :
  In r (Claude.same_day_data df month day) ->
  column t r = Some x ->
  exists p,
    Claude.calculate_percentile df month day (Fin x) t = Some (Fin p)
    /\ p <= inject_Z (Z.of_nat (valued df month day t - 1))
            / inject_Z (Z.of_nat (valued df month day t)) * 100
    /\ p < 100.
Proof.
  intros Hr Hx.
  assert (Hin : In x (dropna (map (column t)
                                  (Claude.same_day_data df month day)))).
  { apply dropna_In. rewrite <- Hx. apply in_map. exact Hr. }
  pose proof (count_lt_own _ _ Hin) as Hc.
  assert (Hn : (0 < List.length
                  (dropna (map (column t)
                               (Claude.same_day_data df month day))))%nat)
    by lia.
  eexists. split; [apply calculate_percentile_Fin; exact Hn|].
  rewrite valued_length. split.
  - apply percent_mono; [lia | exact Hn].
  - apply percent_below_100. exact Hc.
Qed.

(** X4.  The percentile of a value that a row of the month and day itself
    has in the queried column is a finite number of at most
    [(n - 1) / n * 100], where [n] is the number of rows of that month and
    day with a value; in particular it is below 100. *)
Theorem own_value_percentile_bound
    (df : DataFrame) (month day : Z) (t : temp_type) (r : Row) (x : Q) :
  In r (Claude.same_day_data df month day) ->
  column t r = Some x ->
  exists p,
    Claude.calculate_percentile df month day (Fin x) t = Some (Fin p)
    /\ p <= inject_Z (Z.of_nat (valued df month day t - 1))
            / inject_Z (Z.of_nat (valued df month day t)) * 100
    /\ p < 100.
Proof.
  intros Hr Hx. apply (own_value_bound_aux df month day t r x Hr Hx).
Qed.

Lemma own_value_percentile_bound_witness :
  exists p,
    Claude.calculate_percentile Samples.nov13_df 11 13 (Fin (3 # 1)) AvgTemp
    = Some (Fin p)
    /\ p <= inject_Z (Z.of_nat (valued Samples.nov13_df 11 13 AvgTemp - 1))
            / inject_Z (Z.of_nat (valued Samples.nov13_df 11 13 AvgTemp))
            * 100
    /\ p < 100.
Proof.
  apply (own_value_percentile_bound Samples.nov13_df 11 13 AvgTemp
           (Samples.row 2003 11 13 (3 # 1) (0 # 1) (7 # 1))).
  - simpl. auto.
  - reflexivity.
Defined.

Lemma description_hottest_inv (p : Q) :
  Claude.get_temperature_description (Fin p) = band 6 -> 95 < p.
Proof.
  cbv [band bands nth]. band_cases p; intros H;
    first [discriminate H | assumption].
Qed.

Lemma description_coldest (p : Q) :
  p <= 5 -> Claude.get_temperature_description (Fin p) = band 0.
Proof.
  intros H. unfold Claude.get_temperature_description, le.
  rewrite (proj2 (Qle_bool_iff p 5) H). reflexivity.
Qed.

(** X5.  A row's own value is described as the hottest band only when
    more than 20 rows of its month and day have a value in the column: with
    20 or fewer, the hottest band is out of reach. *)
Theorem hottest_band_needs_21_values
    (df : DataFrame) (month day : Z) (t : temp_type) (r : Row) (x p : Q) :
  In r (Claude.same_day_data df month day) ->
  column t r = Some x ->
  Claude.calculate_percentile df month day (Fin x) t = Some (Fin p) ->
  Claude.get_temperature_description (Fin p) = band 6 ->
  (20 < valued df month day t)%nat.
Proof.
  intros Hr Hx Hp Hband.
  apply description_hottest_inv in Hband.
  destruct (own_value_bound_aux df month day t r x Hr Hx)
    as [q [Hq [Hle _]]].
  rewrite Hq in Hp. injection Hp as <-.
  destruct (Nat.le_gt_cases (valued df month day t) 20) as [Hn|Hn];
    [exfalso | exact Hn].
  apply (Qlt_not_le _ _ Hband).
  apply Qle_trans with (1 := Hle).
  assert (Hpos : (0 < valued df month day t)%nat).
  { rewrite valued_length. apply dropna_nonempty with x.
    rewrite <- Hx. apply in_map. exact Hr. }
  pose proof (inject_nat_pos _ Hpos) as Hq0.
  assert (Hdiv : inject_Z (Z.of_nat (valued df month day t - 1))
                 / inject_Z (Z.of_nat (valued df month day t))
                 <= 95 # 100).
  { apply Qle_shift_div_r; [exact Hq0|].
    replace (Z.of_nat (valued df month day t - 1))
      with (Z.of_nat (valued df month day t) - 1)%Z by lia.
    unfold Zminus. rewrite inject_Z_plus.
    assert (Hb : inject_Z (Z.of_nat (valued df month day t)) <= 20).
    { change 20 with (inject_Z 20). rewrite <- Zle_Qle. lia. }
    change (inject_Z (- (1))) with (- (1)). lra. }
  lra.
Qed.

Lemma hottest_band_needs_21_values_witness :
  (20 < valued Samples.long_df 11 13 AvgTemp)%nat.
Proof.
  apply (hottest_band_needs_21_values Samples.long_df 11 13 AvgTemp
           (Samples.row 2020 11 13 (20 # 1) (-5 # 1) (25 # 1))
           (20 # 1) (2000 # 21)).
  - simpl. repeat (first [left; reflexivity | right]).
  - reflexivity.
  - vm_compute. reflexivity.
  - vm_compute. reflexivity.
Defined.

(** X6.  A missing value passed as the query (the row of the selected day
    has no value in the column) is compared as NaN: whenever some row of
    the month and day has a value, its percentile is 0 and its description
    is the coldest band. *)
Theorem missing_value_reads_coldest
    (df : DataFrame) (month day : Z) (t : temp_type) :
  (0 < valued df month day t)%nat ->
  exists p,
    Claude.calculate_percentile df month day (of_cell None) t = Some (Fin p)
    /\ p == 0
    /\ Claude.get_temperature_description (Fin p) = band 0.
Proof.
  intros Hn. rewrite valued_length in Hn.
  eexists. split; [apply calculate_percentile_Fin; exact Hn|].
  assert (E : count_lt (dropna (map (column t)
                                    (Claude.same_day_data df month day)))
                       (of_cell None) = 0%nat)
    by (apply count_lt_none; intros x _; reflexivity).
  rewrite E.
  assert (H0 : inject_Z (Z.of_nat 0)
               / inject_Z (Z.of_nat
                   (List.length
                      (dropna (map (column t)
                                   (Claude.same_day_data df month day)))))
               * 100 == 0).
  { simpl. unfold Qdiv. rewrite Qmult_0_l. reflexivity. }
  split; [exact H0|].
  apply description_coldest. rewrite H0. discriminate.
Qed.

Lemma missing_value_reads_coldest_witness :
  exists p,
    Claude.calculate_percentile Samples.ties_df 11 13 (of_cell None) AvgTemp
    = Some (Fin p)
    /\ p == 0
    /\ Claude.get_temperature_description (Fin p) = band 0.
Proof.
  apply missing_value_reads_coldest. vm_compute. lia.
Defined.

(** ** The entries of the exam-day table *)



(** ** Tab 1 of the second dashboard *)

Lemma selected_data_nil (df : DataFrame) (d : Timestamp) :
  ClaudeTab.selected_data df d = [] <-> forall r, In r df -> date r <> d.
Proof.
  unfold ClaudeTab.selected_data. split.
  - intros E r Hr Hd.
    assert (H : In r (filter (fun r => Timestamp_eqb (date r) d) df))
      by (apply filter_In; split; [exact Hr | apply Timestamp_eqb_eq, Hd]).
    rewrite E in H. exact H.
  - intros H. destruct (filter _ df) as [|r l] eqn:E; [reflexivity|].
    assert (Hr : In r (filter (fun r => Timestamp_eqb (date r) d) df))
      by (rewrite E; left; reflexivity).
    apply filter_In in Hr. destruct Hr as [Hr Hd].
    apply Timestamp_eqb_eq in Hd. destruct (H r Hr Hd).
Qed.

Lemma card_present (df : DataFrame) (month day : Z) (row : Row)
    (stats : Claude.Stats) (t : temp_type) :
  Claude.same_day_data df month day <> [] ->
  exists c, ClaudeTab.card df month day row stats t = Some c.
Proof.
  intros Hne. unfold ClaudeTab.card.
  destruct (Claude.calculate_percentile df month day
              (of_cell (column t row)) t) eqn:E; [eauto|].
  apply calculate_percentile_None in E. contradiction.
Qed.

(** X8.  The first tab shows the no-data warning exactly when no row of
    the table has the selected date.  Otherwise it always shows the three
    cards: the statistics of the selected month and day are never [None]
    there, so the comparison is never left blank, and no percentile is
    [None], so [get_temperature_description] is never called on [None]. *)
Theorem second_dashboard_tab1_outcome (df : DataFrame) (selected_date : Timestamp) :
  (ClaudeTab.tab1 df selected_date = ClaudeTab.Warning
   <-> forall r, In r df -> date r <> selected_date)
  /\ ((exists r, In r df /\ date r = selected_date) ->
      exists yr n a b c,
        ClaudeTab.tab1 df selected_date = ClaudeTab.Cards yr n a b c
        /\ (1 <= n)%nat)
  /\ ClaudeTab.tab1 df selected_date <> ClaudeTab.Blank
  /\ ClaudeTab.tab1 df selected_date <> ClaudeTab.TypeError.
Proof.
  assert (Hcases :
            (ClaudeTab.selected_data df selected_date = []
             /\ ClaudeTab.tab1 df selected_date = ClaudeTab.Warning)
            \/ (ClaudeTab.selected_data df selected_date <> []
                /\ exists yr n a b c,
                     ClaudeTab.tab1 df selected_date
                     = ClaudeTab.Cards yr n a b c
                     /\ (1 <= n)%nat)).
  { unfold ClaudeTab.tab1.
    destruct (ClaudeTab.selected_data df selected_date) as [|row rows] eqn:E;
      [left; split; reflexivity|].
    right. split; [discriminate|].
    assert (Hrow : In row (ClaudeTab.selected_data df selected_date))
      by (rewrite E; left; reflexivity).
    apply filter_In in Hrow. destruct Hrow as [Hin Hd].
    apply Timestamp_eqb_eq in Hd.
    assert (Hsame : In row (Claude.same_day_data df (month selected_date)
                                                 (day selected_date)))
      by (apply same_day_data_In; subst selected_date; auto).
    assert (Hne : Claude.same_day_data df (month selected_date)
                                       (day selected_date) <> [])
      by (intros En; rewrite En in Hsame; destruct Hsame).
    cbv zeta.
    destruct (Claude.get_historical_stats df (month selected_date)
                                          (day selected_date))
      as [st|] eqn:Est;
      [|apply get_historical_stats_None in Est; contradiction].
    destruct (card_present df _ _ row st AvgTemp Hne) as [a ->].
    destruct (card_present df _ _ row st MinTemp Hne) as [b ->].
    destruct (card_present df _ _ row st MaxTemp Hne) as [c ->].
    do 5 eexists. split; [reflexivity|].
    destruct (stats_inv _ _ _ _ Est) as [_ [-> _]].
    destruct (Claude.same_day_data df _ _); [contradiction | simpl; lia]. }
  split; [|split; [|split]].
  - rewrite <- selected_data_nil.
    destruct Hcases as [[E H]|[E [yr [n [a [b [c [H _]]]]]]]]; rewrite H.
    + split; auto.
    + split; [discriminate | contradiction].
  - intros [r [Hr Hd]].
    destruct Hcases as [[E _]|[_ H]]; [|exact H].
    rewrite selected_data_nil in E. destruct (E r Hr Hd).
  - destruct Hcases as [[_ H]|[_ [yr [n [a [b [c [H _]]]]]]]]; rewrite H;
      discriminate.
  - destruct Hcases as [[_ H]|[_ [yr [n [a [b [c [H _]]]]]]]]; rewrite H;
      discriminate.
Qed.

(** ** The order on percentiles *)

Lemma lt_le_float (a b : float) : lt a b = true -> le a b = true.
Proof.
  destruct a as [x|[]|], b as [y|[]|]; simpl;
    try discriminate; try reflexivity.
  rewrite Qlt_bool_iff, Qle_bool_iff. apply Qlt_le_weak.
Qed.

Lemma not_lt_le_float (a b : float) :
  ClaudeTab.is_nan a = false -> ClaudeTab.is_nan b = false ->
  lt a b = false -> le b a = true.
Proof.
  destruct a as [x|[]|], b as [y|[]|]; simpl;
    try discriminate; try reflexivity; intros _ _.
  rewrite Qlt_bool_false_iff, Qle_bool_iff. auto.
Qed.

Lemma le_trans_float (a b c : float) :
  le a b = true -> le b c = true -> le a c = true.
Proof.
  destruct a as [x|[]|], b as [y|[]|], c as [z|[]|]; simpl;
    try discriminate; try reflexivity.
  rewrite !Qle_bool_iff. apply Qle_trans.
Qed.

Lemma le_not_nan (a b : float) :
  le a b = true -> ClaudeTab.is_nan a = false /\ ClaudeTab.is_nan b = false.
Proof.
  destruct a, b; simpl; try discriminate; auto.
Qed.

Lemma ordered_trans (asc : bool) (a b c : Claude.Entry) :
  ordered asc a b -> ordered asc b c -> ordered asc a c.
Proof.
  unfold ordered. destruct asc; intros H1 H2;
    eapply le_trans_float; eassumption.
Qed.

(** ** Sorting by percentile *)

Lemma insert_by_pct_perm (asc : bool) (e : Claude.Entry)
    (l : list Claude.Entry) :
  Permutation (ClaudeTab.insert_by_pct asc e l) (e :: l).
Proof.
  induction l as [|x rest IH]; cbn [ClaudeTab.insert_by_pct]; [reflexivity|].
  destruct (if asc then _ else _); [reflexivity|].
  rewrite IH. apply perm_swap.
Qed.

Lemma insert_by_pct_sorted (asc : bool) (e : Claude.Entry)
    (l : list Claude.Entry) :
  ClaudeTab.is_nan (ClaudeTab.pct_key e) = false ->
  Forall (fun x => ClaudeTab.is_nan (ClaudeTab.pct_key x) = false) l ->
  StronglySorted (ordered asc) l ->
  StronglySorted (ordered asc) (ClaudeTab.insert_by_pct asc e l).
Proof.
  intros He. induction l as [|x rest IH]; intros Hnan Hs;
    cbn [ClaudeTab.insert_by_pct].
  - repeat constructor.
  - apply StronglySorted_inv in Hs. destruct Hs as [Hrest Hall].
    inversion Hnan as [|x' l' Hx Hnan']; subst.
    destruct (if asc then lt (ClaudeTab.pct_key e) (ClaudeTab.pct_key x)
              else lt (ClaudeTab.pct_key x) (ClaudeTab.pct_key e)) eqn:E.
    + assert (Hex : ordered asc e x)
        by (unfold ordered; destruct asc; apply lt_le_float; exact E).
      constructor; [constructor; assumption|].
      constructor; [exact Hex|].
      rewrite Forall_forall in *. intros y Hy.
      apply ordered_trans with x; [exact Hex | apply Hall; exact Hy].
    + assert (Hxe : ordered asc x e)
        by (unfold ordered; destruct asc; apply not_lt_le_float; assumption).
      constructor; [apply IH; assumption|].
      rewrite Forall_forall in *. intros y Hy.
      apply (Permutation_in _ (insert_by_pct_perm asc e rest)) in Hy.
      destruct Hy as [<-|Hy]; [exact Hxe | apply Hall; exact Hy].
Qed.

Lemma filter_all {A : Type} (f : A -> bool) (l : list A) :
  (forall x, In x l -> f x = true) -> filter f l = l.
Proof.
  induction l as [|a l IH]; intros H; [reflexivity|].
  cbn [filter]. rewrite (H a (or_introl eq_refl)). f_equal.
  apply IH. intros x Hx. apply H. right. exact Hx.
Qed.

Lemma filter_none {A : Type} (f : A -> bool) (l : list A) :
  (forall x, In x l -> f x = false) -> filter f l = [].
Proof.
  induction l as [|a l IH]; intros H; [reflexivity|].
  cbn [filter]. rewrite (H a (or_introl eq_refl)).
  apply IH. intros x Hx. apply H. right. exact Hx.
Qed.

(** On entries that all have a percentile, [sort_values] rearranges the
    list into the requested order. *)
Lemma sort_values_sorted (asc : bool) (l : list Claude.Entry) :
  (forall x, In x l -> ClaudeTab.is_nan (ClaudeTab.pct_key x) = false) ->
  Permutation (ClaudeTab.sort_values asc l) l
  /\ StronglySorted (ordered asc) (ClaudeTab.sort_values asc l).
Proof.
  intros Hnan. unfold ClaudeTab.sort_values.
  rewrite filter_all
    by (intros x Hx; rewrite (Hnan x Hx); reflexivity).
  rewrite filter_none by exact Hnan. rewrite app_nil_r.
  assert (Hrev : forall x, In x (rev l) ->
                   ClaudeTab.is_nan (ClaudeTab.pct_key x) = false)
    by (intros x Hx; apply Hnan, in_rev; exact Hx).
  rewrite (Permutation_rev l) at 2.
  induction (rev l) as [|a r IH]; cbn [fold_right].
  - split; [reflexivity | constructor].
  - destruct IH as [IHp IHs]; [intros x Hx; apply Hrev; right; exact Hx|].
    split.
    + rewrite insert_by_pct_perm. constructor. exact IHp.
    + apply insert_by_pct_sorted;
        [apply Hrev; left; reflexivity | | exact IHs].
      rewrite Forall_forall. intros x Hx. apply Hrev. right.
      apply (Permutation_in _ IHp). exact Hx.
Qed.

Lemma StronglySorted_app_cross {A : Type} (R : A -> A -> Prop)
    (l1 l2 : list A) :
  StronglySorted R (l1 ++ l2) ->
  StronglySorted R l1
  /\ forall a b, In a l1 -> In b l2 -> R a b.
Proof.
  induction l1 as [|x l1 IH]; cbn [app]; intros Hs.
  - split; [constructor | intros a b []].
  - apply StronglySorted_inv in Hs. destruct Hs as [Hrest Hall].
    destruct (IH Hrest) as [Hs1 Hcross]. rewrite Forall_forall in Hall.
    split.
    + constructor; [exact Hs1|]. rewrite Forall_forall.
      intros y Hy. apply Hall, in_or_app. left. exact Hy.
    + intros a b [<-|Ha] Hb;
        [apply Hall, in_or_app; right; exact Hb | apply Hcross; assumption].
Qed.

(** The first five of a pool sorted by [sort_values]. *)
Lemma head5_of_sorted (asc : bool) (pool : list Claude.Entry) :
  (forall x, In x pool -> ClaudeTab.is_nan (ClaudeTab.pct_key x) = false) ->
  let listed := firstn 5 (ClaudeTab.sort_values asc pool) in
  List.length listed = Nat.min 5 (List.length pool)
  /\ StronglySorted (ordered asc) listed
  /\ exists rest,
       Permutation (listed ++ rest) pool
       /\ forall a b, In a listed -> In b rest -> ordered asc a b.
Proof.
  intros Hnan listed.
  destruct (sort_values_sorted asc pool Hnan) as [Hperm Hsorted].
  pose proof (firstn_skipn 5 (ClaudeTab.sort_values asc pool)) as Hsplit.
  fold listed in Hsplit. rewrite <- Hsplit in Hsorted.
  apply StronglySorted_app_cross in Hsorted.
  destruct Hsorted as [Hs Hcross].
  split.
  - unfold listed. rewrite length_firstn.
    rewrite (Permutation_length Hperm). reflexivity.
  - split; [exact Hs|].
    exists (skipn 5 (ClaudeTab.sort_values asc pool)).
    split; [rewrite Hsplit; exact Hperm | exact Hcross].
Qed.

Lemma top5_fst (pool : list Claude.Entry) :
  map fst (ClaudeTab.top5 pool) = firstn 5 pool.
Proof.
  unfold ClaudeTab.top5. rewrite map_map. cbn [fst]. apply map_id.
Qed.

Lemma top5_In (pool : list Claude.Entry) (e : Claude.Entry) (d : string) :
  In (e, d) (ClaudeTab.top5 pool) ->
  In e (firstn 5 pool)
  /\ d = fst (Claude.get_temperature_description (ClaudeTab.pct_key e)).
Proof.
  unfold ClaudeTab.top5. intros H. apply in_map_iff in H.
  destruct H as [x [E Hx]]. injection E as <- <-. split; [exact Hx|reflexivity].
Qed.

Lemma description_cold (x : float) :
  le x (Fin 20) = true ->
  Claude.get_temperature_description x = band 0
  \/ Claude.get_temperature_description x = band 1
  \/ Claude.get_temperature_description x = band 2.
Proof.
  destruct x as [p|n|]; [| |discriminate].
  - simpl. rewrite Qle_bool_iff. intros Hp. cbv [band bands nth].
    band_cases p;
      first [ left; reflexivity | right; left; reflexivity
            | right; right; reflexivity | exfalso; lra ].
  - destruct n; [|discriminate]. intros _. left. reflexivity.
Qed.

Lemma description_warm (x : float) :
  le (Fin 80) x = true ->
  Claude.get_temperature_description x = band 4
  \/ Claude.get_temperature_description x = band 5
  \/ Claude.get_temperature_description x = band 6.
Proof.
  destruct x as [p|n|]; [| |discriminate].
  - simpl. rewrite Qle_bool_iff. intros Hp. cbv [band bands nth].
    band_cases p;
      first [ left; reflexivity | right; left; reflexivity
            | right; right; reflexivity | exfalso; lra ].
  - destruct n; [discriminate|]. intros _. right. right. reflexivity.
Qed.

(** ** The two top-5 lists *)

Lemma cold_pool_keys (suneung_df : list Claude.Entry) (x : Claude.Entry) :
  In x (cold_pool suneung_df) ->
  In x suneung_df /\ le (ClaudeTab.pct_key x) (Fin 20) = true.
Proof. unfold cold_pool. intros H. apply filter_In in H. exact H. Qed.

Lemma warm_pool_keys (suneung_df : list Claude.Entry) (x : Claude.Entry) :
  In x (warm_pool suneung_df) ->
  In x suneung_df /\ le (Fin 80) (ClaudeTab.pct_key x) = true.
Proof. unfold warm_pool. intros H. apply filter_In in H. exact H. Qed.

(** X9.  The list of the coldest exam days shows the entries with the
    five lowest percentiles among those with a percentile of at most 20 (all
    of them when there are fewer than five), lowest first, and each is
    described by one of the three cold bands. *)
Theorem cold_top5_spec (suneung_df : list Claude.Entry) :
  let shown := ClaudeTab.top5 (ClaudeTab.cold_suneungs suneung_df) in
  List.length shown = Nat.min 5 (List.length (cold_pool suneung_df))
  /\ (forall e d, In (e, d) shown ->
        In e suneung_df
        /\ le (ClaudeTab.pct_key e) (Fin 20) = true
        /\ (d = fst (band 0) \/ d = fst (band 1) \/ d = fst (band 2)))
  /\ StronglySorted (ordered true) (map fst shown)
  /\ exists rest,
       Permutation (map fst shown ++ rest) (cold_pool suneung_df)
       /\ forall a b, In a (map fst shown) -> In b rest -> ordered true a b.
Proof.
  intros shown.
  assert (Hnan : forall x, In x (cold_pool suneung_df) ->
                   ClaudeTab.is_nan (ClaudeTab.pct_key x) = false).
  { intros x Hx. apply cold_pool_keys in Hx. destruct Hx as [_ Hx].
    apply le_not_nan in Hx. tauto. }
  destruct (head5_of_sorted true _ Hnan) as [Hlen [Hs [rest [Hperm Hcross]]]].
  assert (Efst : map fst shown
                 = firstn 5 (ClaudeTab.sort_values true
                               (cold_pool suneung_df)))
    by (apply top5_fst).
  split; [rewrite <- Hlen, <- Efst; symmetry; apply length_map|].
  split.
  - intros e d Hin. apply top5_In in Hin. destruct Hin as [He ->].
    assert (Hpool : In e (cold_pool suneung_df)).
    { apply (Permutation_in e Hperm). apply in_or_app. left. exact He. }
    apply cold_pool_keys in Hpool. destruct Hpool as [Hdf Hle].
    split; [exact Hdf|]. split; [exact Hle|].
    destruct (description_cold _ Hle) as [E|[E|E]]; rewrite E; auto.
  - rewrite Efst. split; [exact Hs|]. exists rest. split; assumption.
Qed.

(** X10.  The list of the warmest exam days shows the entries with the
    five highest percentiles among those with a percentile of at least 80
    (all of them when there are fewer than five), highest first, and each
    is described by one of the three warm bands. *)
Theorem warm_top5_spec (suneung_df : list Claude.Entry) :
  let shown := ClaudeTab.top5 (ClaudeTab.warm_suneungs suneung_df) in
  List.length shown = Nat.min 5 (List.length (warm_pool suneung_df))
  /\ (forall e d, In (e, d) shown ->
        In e suneung_df
        /\ le (Fin 80) (ClaudeTab.pct_key e) = true
        /\ (d = fst (band 4) \/ d = fst (band 5) \/ d = fst (band 6)))
  /\ StronglySorted (ordered false) (map fst shown)
  /\ exists rest,
       Permutation (map fst shown ++ rest) (warm_pool suneung_df)
       /\ forall a b, In a (map fst shown) -> In b rest -> ordered false a b.
Proof.
  intros shown.
  assert (Hnan : forall x, In x (warm_pool suneung_df) ->
                   ClaudeTab.is_nan (ClaudeTab.pct_key x) = false).
  { intros x Hx. apply warm_pool_keys in Hx. destruct Hx as [_ Hx].
    apply le_not_nan in Hx. tauto. }
  destruct (head5_of_sorted false _ Hnan) as [Hlen [Hs [rest [Hperm Hcross]]]].
  assert (Efst : map fst shown
                 = firstn 5 (ClaudeTab.sort_values false
                               (warm_pool suneung_df)))
    by (apply top5_fst).
  split; [rewrite <- Hlen, <- Efst; symmetry; apply length_map|].
  split.
  - intros e d Hin. apply top5_In in Hin. destruct Hin as [He ->].
    assert (Hpool : In e (warm_pool suneung_df)).
    { apply (Permutation_in e Hperm). apply in_or_app. left. exact He. }
    apply warm_pool_keys in Hpool. destruct Hpool as [Hdf Hle].
    split; [exact Hdf|]. split; [exact Hle|].
    destruct (description_warm _ Hle) as [E|[E|E]]; rewrite E; auto.
  - rewrite Efst. split; [exact Hs|]. exists rest. split; assumption.
Qed.

(** The sample summary: of six entries with a percentile of at most 20 the
    five lowest are listed, the entry at exactly 20 is left out, and the
    entry without a percentile is in neither list. *)
Example top5_sample :
  map (fun p => Claude.e_year (fst p))
      (ClaudeTab.top5 (ClaudeTab.cold_suneungs sample_entries))
  = [2003; 2007; 2001; 2009; 2005]%Z
  /\ map (fun p => Claude.e_year (fst p))
         (ClaudeTab.top5 (ClaudeTab.warm_suneungs sample_entries))
     = [2002]%Z
  /\ ClaudeTab.cold_count sample_entries = 6%nat.
Proof. repeat split; vm_compute; reflexivity. Qed.

(** ** The coldest and the warmest exam day *)

Lemma idxmin_spec (s : list cell) :
  match ClaudeTab.idxmin s with
  | None => forall c, In c s -> c = None
  | Some (i, m) =>
      nth_error s i = Some (Some m)
      /\ (forall x, In (Some x) s -> m <= x)
      /\ (forall j x, (j < i)%nat -> nth_error s j = Some (Some x) -> m < x)
  end.
Proof.
  induction s as [|c rest IH]; cbn [ClaudeTab.idxmin].
  - intros c [].
  - destruct c as [x|], (ClaudeTab.idxmin rest) as [[j b]|].
    + destruct IH as [Hnth [Hall Hfirst]].
      destruct (Qle_bool x b) eqn:E.
      * apply Qle_bool_iff in E. split; [reflexivity|]. split.
        -- intros y [Hy|Hy]; [injection Hy as <-; apply Qle_refl|].
           apply Qle_trans with b; [exact E | apply Hall; exact Hy].
        -- intros k y Hk. lia.
      * apply Qle_bool_false_iff in E. split; [exact Hnth|]. split.
        -- intros y [Hy|Hy];
             [injection Hy as <-; apply Qlt_le_weak; exact E
             | apply Hall; exact Hy].
        -- intros [|k] y Hk Hy; cbn [nth_error] in Hy.
           ++ injection Hy as <-. exact E.
           ++ apply (Hfirst k y); [lia | exact Hy].
    + split; [reflexivity|]. split.
      * intros y [Hy|Hy]; [injection Hy as <-; apply Qle_refl|].
        specialize (IH _ Hy). discriminate.
      * intros k y Hk. lia.
    + destruct IH as [Hnth [Hall Hfirst]]. split; [exact Hnth|]. split.
      * intros y [Hy|Hy]; [discriminate | apply Hall; exact Hy].
      * intros [|k] y Hk Hy; cbn [nth_error] in Hy; [discriminate|].
        apply (Hfirst k y); [lia | exact Hy].
    + intros c [<-|Hc]; [reflexivity | apply IH; exact Hc].
Qed.

Lemma idxmax_spec (s : list cell) :
  match ClaudeTab.idxmax s with
  | None => forall c, In c s -> c = None
  | Some (i, m) =>
      nth_error s i = Some (Some m)
      /\ (forall x, In (Some x) s -> x <= m)
      /\ (forall j x, (j < i)%nat -> nth_error s j = Some (Some x) -> x < m)
  end.
Proof.
  induction s as [|c rest IH]; cbn [ClaudeTab.idxmax].
  - intros c [].
  - destruct c as [x|], (ClaudeTab.idxmax rest) as [[j b]|].
    + destruct IH as [Hnth [Hall Hfirst]].
      destruct (Qle_bool b x) eqn:E.
      * apply Qle_bool_iff in E. split; [reflexivity|]. split.
        -- intros y [Hy|Hy]; [injection Hy as <-; apply Qle_refl|].
           apply Qle_trans with b; [apply Hall; exact Hy | exact E].
        -- intros k y Hk. lia.
      * apply Qle_bool_false_iff in E. split; [exact Hnth|]. split.
        -- intros y [Hy|Hy];
             [injection Hy as <-; apply Qlt_le_weak; exact E
             | apply Hall; exact Hy].
        -- intros [|k] y Hk Hy; cbn [nth_error] in Hy.
           ++ injection Hy as <-. exact E.
           ++ apply (Hfirst k y); [lia | exact Hy].
    + split; [reflexivity|]. split.
      * intros y [Hy|Hy]; [injection Hy as <-; apply Qle_refl|].
        specialize (IH _ Hy). discriminate.
      * intros k y Hk. lia.
    + destruct IH as [Hnth [Hall Hfirst]]. split; [exact Hnth|]. split.
      * intros y [Hy|Hy]; [discriminate | apply Hall; exact Hy].
      * intros [|k] y Hk Hy; cbn [nth_error] in Hy; [discriminate|].
        apply (Hfirst k y); [lia | exact Hy].
    + intros c [<-|Hc]; [reflexivity | apply IH; exact Hc].
Qed.

Lemma nth_error_map_inv {A B : Type} (f : A -> B) (l : list A) (i : nat)
    (b : B) :
  nth_error (map f l) i = Some b ->
  exists a, nth_error l i = Some a /\ f a = b.
Proof.
  rewrite nth_error_map. destruct (nth_error l i) as [a|]; simpl;
    [|discriminate].
  intros H. injection H as <-. exists a. split; reflexivity.
Qed.

Lemma coldest_spec (suneung_df : list Claude.Entry) :
  match ClaudeTab.coldest suneung_df with
  | None => forall e, In e suneung_df -> Claude.e_avg_temp e = None
  | Some c =>
      exists i m,
        nth_error suneung_df i = Some c
        /\ Claude.e_avg_temp c = Some m
        /\ (forall e x, In e suneung_df ->
                        Claude.e_avg_temp e = Some x -> m <= x)
        /\ (forall j e x, (j < i)%nat -> nth_error suneung_df j = Some e ->
                          Claude.e_avg_temp e = Some x -> m < x)
  end.
Proof.
  unfold ClaudeTab.coldest.
  pose proof (idxmin_spec (map Claude.e_avg_temp suneung_df)) as H.
  destruct (ClaudeTab.idxmin (map Claude.e_avg_temp suneung_df))
    as [[i m]|].
  - destruct H as [Hnth [Hall Hfirst]].
    apply nth_error_map_inv in Hnth. destruct Hnth as [c [Hc Hm]].
    rewrite Hc. exists i, m. split; [exact Hc|]. split; [exact Hm|].
    split.
    + intros e x He Hx. apply Hall. rewrite <- Hx. apply in_map. exact He.
    + intros j e x Hj He Hx. apply (Hfirst j x Hj).
      rewrite nth_error_map, He. simpl. rewrite Hx. reflexivity.
  - intros e He. apply H. apply in_map. exact He.
Qed.

Lemma warmest_spec (suneung_df : list Claude.Entry) :
  match ClaudeTab.warmest suneung_df with
  | None => forall e, In e suneung_df -> Claude.e_avg_temp e = None
  | Some w =>
      exists i m,
        nth_error suneung_df i = Some w
        /\ Claude.e_avg_temp w = Some m
        /\ (forall e x, In e suneung_df ->
                        Claude.e_avg_temp e = Some x -> x <= m)
        /\ (forall j e x, (j < i)%nat -> nth_error suneung_df j = Some e ->
                          Claude.e_avg_temp e = Some x -> x < m)
  end.
Proof.
  unfold ClaudeTab.warmest.
  pose proof (idxmax_spec (map Claude.e_avg_temp suneung_df)) as H.
  destruct (ClaudeTab.idxmax (map Claude.e_avg_temp suneung_df))
    as [[i m]|].
  - destruct H as [Hnth [Hall Hfirst]].
    apply nth_error_map_inv in Hnth. destruct Hnth as [c [Hc Hm]].
    rewrite Hc. exists i, m. split; [exact Hc|]. split; [exact Hm|].
    split.
    + intros e x He Hx. apply Hall. rewrite <- Hx. apply in_map. exact He.
    + intros j e x Hj He Hx. apply (Hfirst j x Hj).
      rewrite nth_error_map, He. simpl. rewrite Hx. reflexivity.
  - intros e He. apply H. apply in_map. exact He.
Qed.

(** X11.  The coldest exam day is the first entry, in table order, whose
    average temperature is the lowest one present: no entry has a lower
    one and every entry before it has a strictly higher one or none.  The
    lookup fails exactly when no entry has an average temperature, so also
    on an empty table.  The warmest exam day is the same with the order
    reversed. *)
Theorem coldest_warmest_first_extreme (suneung_df : list Claude.Entry) :
  (ClaudeTab.coldest suneung_df = None
   <-> forall e, In e suneung_df -> Claude.e_avg_temp e = None)
  /\ (forall c, ClaudeTab.coldest suneung_df = Some c ->
        exists i m,
          nth_error suneung_df i = Some c
          /\ Claude.e_avg_temp c = Some m
          /\ (forall e x, In e suneung_df ->
                          Claude.e_avg_temp e = Some x -> m <= x)
          /\ (forall j e x, (j < i)%nat -> nth_error suneung_df j = Some e ->
                            Claude.e_avg_temp e = Some x -> m < x))
  /\ (ClaudeTab.warmest suneung_df = None
      <-> forall e, In e suneung_df -> Claude.e_avg_temp e = None)
  /\ (forall w, ClaudeTab.warmest suneung_df = Some w ->
        exists i m,
          nth_error suneung_df i = Some w
          /\ Claude.e_avg_temp w = Some m
          /\ (forall e x, In e suneung_df ->
                          Claude.e_avg_temp e = Some x -> x <= m)
          /\ (forall j e x, (j < i)%nat -> nth_error suneung_df j = Some e ->
                            Claude.e_avg_temp e = Some x -> x < m)).
Proof.
  pose proof (coldest_spec suneung_df) as Hc.
  pose proof (warmest_spec suneung_df) as Hw.
  split; [|split; [|split]].
  - destruct (ClaudeTab.coldest suneung_df) as [c|].
    + split; [discriminate|]. intros Hall.
      destruct Hc as [i [m [Hnth [Hm _]]]]. apply nth_error_In in Hnth.
      rewrite (Hall _ Hnth) in Hm. discriminate.
    + split; auto.
  - intros c E. rewrite E in Hc. exact Hc.
  - destruct (ClaudeTab.warmest suneung_df) as [w|].
    + split; [discriminate|]. intros Hall.
      destruct Hw as [i [m [Hnth [Hm _]]]]. apply nth_error_In in Hnth.
      rewrite (Hall _ Hnth) in Hm. discriminate.
    + split; auto.
  - intros w E. rewrite E in Hw. exact Hw.
Qed.

(** The sample summary: the lowest average, 1 degree, occurs in 2003 and
    2007 and the earlier entry is reported; the highest is that of 2002. *)
Example coldest_warmest_sample :
  option_map Claude.e_year (ClaudeTab.coldest sample_entries) = Some 2003%Z
  /\ option_map Claude.e_year (ClaudeTab.warmest sample_entries)
     = Some 2002%Z
  /\ ClaudeTab.coldest [] = None.
Proof. repeat split; vm_compute; reflexivity. Qed.

(** ** Tab 1 of the first dashboard *)

Lemma combine_map_self {A B : Type} (f : A -> B) (l : list A) :
  combine l (map f l) = map (fun x => (x, f x)) l.
Proof.
  induction l as [|a l IH]; simpl; [reflexivity|]. rewrite IH. reflexivity.
Qed.

Lemma filter_map_swap {A B : Type} (f : A -> B) (p : B -> bool)
    (l : list A) :
  filter p (map f l) = map f (filter (fun x => p (f x)) l).
Proof.
  induction l as [|a l IH]; simpl; [reflexivity|].
  destruct (p (f a)); simpl; rewrite IH; reflexivity.
Qed.

Lemma history_df_In (df : DataFrame) (d : Timestamp) (r : Row) :
  In r (Gemini.history_df df d)
  <-> In r df /\ month (date r) = month d /\ day (date r) = day d.
Proof.
  unfold Gemini.history_df. rewrite filter_In, andb_true_iff, !Z.eqb_eq.
  reflexivity.
Qed.

Lemma current_year_data_In (df : DataFrame) (d : Timestamp) (r : Row) :
  In r (GeminiTab.current_year_data df d) <-> In r df /\ date r = d.
Proof.
  unfold GeminiTab.current_year_data.
  rewrite filter_In, history_df_In, Z.eqb_eq. split.
  - intros [[Hr [Hm Hd]] Hy]. split; [exact Hr|].
    destruct (date r), d; simpl in *. congruence.
  - intros [Hr <-]. auto.
Qed.

(** The rank of a row with a value, by counting. *)
Lemma rank_value (rows : list Row) (r : Row) (x : Q) :
  In r rows -> avg_temp r = Some x ->
  Gemini.first_pos x (Gemini.sort_desc (dropna (map avg_temp rows)))
  = List.length (filter (value_above AvgTemp x) rows).
Proof.
  intros Hr Hx. rewrite first_pos_sorted.
  - rewrite above_sort_desc. apply above_rows.
  - apply sort_desc_sorted.
  - exists x. split; [|reflexivity].
    apply sort_desc_In, dropna_In. rewrite <- Hx. apply in_map. exact Hr.
Qed.

Lemma above_own_lt (rows : list Row) (r : Row) (x : Q) :
  In r rows -> avg_temp r = Some x ->
  (List.length (filter (value_above AvgTemp x) rows) < List.length rows)%nat.
Proof.
  intros Hr Hx. apply filter_length_lt with r; [exact Hr|].
  unfold value_above. cbn [column]. rewrite Hx.
  apply Qlt_bool_false_iff. apply Qle_refl.
Qed.

(** [cur_rank] reads the rank of the first row of the selected year. *)
Lemma cur_rank_unfold (df : DataFrame) (d : Timestamp) :
  Gemini.cur_rank df d
  = match GeminiTab.current_year_data df d with
    | [] => None
    | row :: _ =>
        Some (match avg_temp row with
              | Some x =>
                  of_nat (1 + List.length
                                (filter (value_above AvgTemp x)
                                        (Gemini.history_df df d)))
              | None => NaN
              end,
              List.length (Gemini.history_df df d))
    end.
Proof.
  unfold Gemini.cur_rank, GeminiTab.current_year_data, Gemini.rank.
  cbv zeta. rewrite map_map, combine_map_self.
  rewrite (filter_map_swap
             (fun r => (r, match avg_temp r with
                           | Some v => _
                           | None => NaN
                           end))
             (fun p => (year (date (fst p)) =? year d)%Z)).
  cbn [fst].
  destruct (filter (fun r => (year (date r) =? year d)%Z)
                   (Gemini.history_df df d)) as [|row rest] eqn:E;
    [reflexivity|].
  cbn [map]. destruct (avg_temp row) as [x|] eqn:Hx; [|reflexivity].
  assert (Hrow : In row (Gemini.history_df df d)).
  { assert (H : In row (filter (fun r => (year (date r) =? year d)%Z)
                               (Gemini.history_df df d)))
      by (rewrite E; left; reflexivity).
    apply filter_In in H. tauto. }
  rewrite (rank_value _ row x Hrow Hx). reflexivity.
Qed.

Lemma int_of_nat (k : nat) : GeminiTab.int (of_nat k) = Some (Z.of_nat k).
Proof.
  unfold GeminiTab.int, of_nat. cbn [inject_Z Qnum Qden].
  rewrite Z.quot_1_r. reflexivity.
Qed.

(** X13.  The first tab of the first dashboard warns that the date has no
    data exactly when no row has the selected date.  When the first row of
    the selected date has no average temperature, the rank line fails with
    the [ValueError] of [int(NaN)].  Otherwise it shows the difference to
    the mean of the other years and a rank equal to 1 + the number of rows
    of that month and day with a strictly higher average, which lies
    between 1 and [total_count]. *)
Theorem first_dashboard_tab1_outcome (df : DataFrame) (d : Timestamp) :
  (GeminiTab.tab1 df d = GeminiTab.Warning
   <-> forall r, In r df -> date r <> d)
  /\ (forall row rest,
         GeminiTab.current_year_data df d = row :: rest ->
         (avg_temp row = None -> GeminiTab.tab1 df d = GeminiTab.ValueError)
         /\ (forall x, avg_temp row = Some x ->
               exists k,
                 GeminiTab.tab1 df d
                 = GeminiTab.Info (Some x)
                     (sub (Fin x) (GeminiTab.avg_temp_hist df d))
                     (Z.of_nat k)
                     (List.length (Gemini.history_df df d))
                 /\ k = (1 + List.length
                               (filter (value_above AvgTemp x)
                                       (Gemini.history_df df d)))%nat
                 /\ (1 <= k <= List.length (Gemini.history_df df d))%nat)).
Proof.
  split.
  - unfold GeminiTab.tab1. rewrite cur_rank_unfold.
    destruct (GeminiTab.current_year_data df d) as [|row rest] eqn:E.
    + split; [|reflexivity]. intros _ r Hr Hd.
      assert (H : In r (GeminiTab.current_year_data df d))
        by (apply current_year_data_In; auto).
      rewrite E in H. exact H.
    + split.
      * cbv zeta. destruct (avg_temp row);
          [rewrite int_of_nat|]; discriminate.
      * intros Hall. exfalso.
        assert (H : In row (GeminiTab.current_year_data df d))
          by (rewrite E; left; reflexivity).
        apply current_year_data_In in H. destruct H as [Hr Hd].
        apply (Hall row Hr Hd).
  - intros row rest E. unfold GeminiTab.tab1.
    rewrite cur_rank_unfold, E. cbv zeta. split.
    + intros ->. reflexivity.
    + intros x Hx. rewrite Hx, int_of_nat. eexists.
      split; [reflexivity|]. split; [reflexivity|].
      assert (Hrow : In row (Gemini.history_df df d)).
      { assert (H : In row (GeminiTab.current_year_data df d))
          by (rewrite E; left; reflexivity).
        unfold GeminiTab.current_year_data in H.
        apply filter_In in H. tauto. }
      pose proof (above_own_lt _ row x Hrow Hx). lia.
Qed.

(** The tied sample: the selected year 2003 is third of five, the year
    2004 has no average temperature, and 2010 has no row. *)
Example first_dashboard_tab1_sample :
  (exists diff, GeminiTab.tab1 Samples.ties_df (mkTimestamp 2003 11 13)
                = GeminiTab.Info (Some (10 # 2)) diff 3 5)
  /\ GeminiTab.tab1 Samples.ties_df (mkTimestamp 2004 11 13)
     = GeminiTab.ValueError
  /\ GeminiTab.tab1 Samples.ties_df (mkTimestamp 2010 11 13)
     = GeminiTab.Warning.
Proof.
  split; [eexists; vm_compute; reflexivity|].
  split; vm_compute; reflexivity.
Qed.

(** X14.  Within the rows of a month and day, a row with a higher or
    equal average temperature never has a larger rank number, and every
    rank lies between 1 and the number of rows. *)
Theorem rank_antitone
    (df : DataFrame) (d : Timestamp) (i j : nat) (ri rj : Row) (v w : Q) :
  nth_error (Gemini.history_df df d) i = Some ri ->
  nth_error (Gemini.history_df df d) j = Some rj ->
  avg_temp ri = Some v ->
  avg_temp rj = Some w ->
  v <= w ->
  exists kv kw,
    nth_error (Gemini.rank (map avg_temp (Gemini.history_df df d))) i
    = Some (of_nat kv)
    /\ nth_error (Gemini.rank (map avg_temp (Gemini.history_df df d))) j
       = Some (of_nat kw)
    /\ (1 <= kw)%nat /\ (kw <= kv)%nat
    /\ (kv <= List.length (Gemini.history_df df d))%nat.
Proof.
  intros Hi Hj Hv Hw Hle.
  set (rows := Gemini.history_df df d) in *.
  assert (Hri : In ri rows) by (apply nth_error_In with i; exact Hi).
  assert (Hrj : In rj rows) by (apply nth_error_In with j; exact Hj).
  exists (1 + List.length (filter (value_above AvgTemp v) rows))%nat,
         (1 + List.length (filter (value_above AvgTemp w) rows))%nat.
  split.
  { rewrite (rank_nth _ i (Some v)), (rank_value rows ri v Hri Hv);
      [reflexivity|].
    rewrite nth_error_map, Hi. simpl. rewrite Hv. reflexivity. }
  split.
  { rewrite (rank_nth _ j (Some w)), (rank_value rows rj w Hrj Hw);
      [reflexivity|].
    rewrite nth_error_map, Hj. simpl. rewrite Hw. reflexivity. }
  split; [lia|]. split.
  - apply le_n_S. apply filter_length_mono. intros r _.
    unfold value_above. destruct (column AvgTemp r) as [x|]; [|discriminate].
    rewrite !Qlt_bool_iff. intros H. apply Qle_lt_trans with w; assumption.
  - pose proof (above_own_lt rows ri v Hri Hv). lia.
Qed.

Lemma rank_antitone_witness :
  exists kv kw,
    nth_error
      (Gemini.rank
         (map avg_temp
              (Gemini.history_df Samples.ties_df (mkTimestamp 2003 11 13))))
      0
    = Some (of_nat kv)
    /\ nth_error
         (Gemini.rank
            (map avg_temp
                 (Gemini.history_df Samples.ties_df
                                    (mkTimestamp 2003 11 13)))) 1
       = Some (of_nat kw)
    /\ (1 <= kw)%nat /\ (kw <= kv)%nat
    /\ (kv <= List.length
                (Gemini.history_df Samples.ties_df
                                   (mkTimestamp 2003 11 13)))%nat.
Proof.
  apply (rank_antitone Samples.ties_df (mkTimestamp 2003 11 13) 0 1
           (Samples.row 2001 11 13 (5 # 1) (1 # 1) (8 # 1))
           (Samples.row 2002 11 13 (7 # 1) (2 # 1) (9 # 1))
           (5 # 1) (7 # 1));
    [reflexivity | reflexivity | reflexivity | reflexivity |].
  unfold Qle. simpl. lia.
Defined.

(** ** Rank of the first dashboard against percentile of the second *)

Lemma three_way_count (v : Q) (l : list Q) :
  (List.length (filter (fun t => Qlt_bool t v) l)
   + List.length (filter (Qlt_bool v) l)
   + List.length (filter (fun t => Qeq_bool t v) l))%nat
  = List.length l.
Proof.
  induction l as [|a l IH]; [reflexivity|]. cbn [filter].
  destruct (Q_dec a v) as [[Hlt|Hgt]|Heq].
  - rewrite (proj2 (Qlt_bool_iff a v) Hlt).
    rewrite (proj2 (Qlt_bool_false_iff v a) (Qlt_le_weak _ _ Hlt)).
    assert (E : Qeq_bool a v = false).
    { destruct (Qeq_bool a v) eqn:E; [|reflexivity].
      apply Qeq_bool_iff in E. rewrite E in Hlt.
      destruct (Qlt_irrefl _ Hlt). }
    rewrite E. cbn [List.length]. lia.
  - rewrite (proj2 (Qlt_bool_iff v a) Hgt).
    rewrite (proj2 (Qlt_bool_false_iff a v) (Qlt_le_weak _ _ Hgt)).
    assert (E : Qeq_bool a v = false).
    { destruct (Qeq_bool a v) eqn:E; [|reflexivity].
      apply Qeq_bool_iff in E. rewrite E in Hgt.
      destruct (Qlt_irrefl _ Hgt). }
    rewrite E. cbn [List.length]. lia.
  - rewrite (proj2 (Qeq_bool_iff a v) Heq).
    assert (E1 : Qlt_bool a v = false)
      by (apply Qlt_bool_false_iff; rewrite Heq; apply Qle_refl).
    assert (E2 : Qlt_bool v a = false)
      by (apply Qlt_bool_false_iff; rewrite Heq; apply Qle_refl).
    rewrite E1, E2. cbn [List.length]. lia.
Qed.

Lemma ties_values (v : Q) (rows : list Row) :
  ties v rows
  = List.length (filter (fun t => Qeq_bool t v) (dropna (map avg_temp rows))).
Proof.
  unfold ties. induction rows as [|r rows IH]; [reflexivity|].
  cbn [map dropna filter]. destruct (avg_temp r) as [x|]; [|exact IH].
  cbn [filter]. destruct (Qeq_bool x v); cbn [List.length]; rewrite IH;
    reflexivity.
Qed.

Lemma ties_own (v : Q) (rows : list Row) (r : Row) :
  In r rows -> avg_temp r = Some v -> (1 <= ties v rows)%nat.
Proof.
  intros Hr Hv. unfold ties.
  assert (H : In r (filter (fun r => match avg_temp r with
                                     | Some x => Qeq_bool x v
                                     | None => false
                                     end) rows)).
  { apply filter_In. split; [exact Hr|]. rewrite Hv.
    apply Qeq_bool_iff. reflexivity. }
  destruct (filter _ rows); [destruct H | simpl; lia].
Qed.

(** X15.  The two dashboards rank a day consistently.  For a row of the
    selected month and day with an average temperature, let [k] be its rank
    in the first dashboard, [n] the number of rows of that day with an
    average and [ties] the number of rows with the same average (itself
    included).  Its percentile in the second dashboard is [below / n * 100]
    with [below + k + ties = n + 1]; so it is at most [(n - k) / n * 100],
    with equality when no other row has the same average. *)
Theorem percentile_and_rank_agree
    (df : DataFrame) (d : Timestamp) (i : nat) (r : Row) (v : Q) :
  nth_error (Gemini.history_df df d) i = Some r ->
  avg_temp r = Some v ->
  exists p k below,
    Claude.calculate_percentile df (month d) (day d) (Fin v) AvgTemp
    = Some (Fin p)
    /\ nth_error (Gemini.rank (map avg_temp (Gemini.history_df df d))) i
       = Some (of_nat k)
    /\ p == inject_Z (Z.of_nat below)
            / inject_Z (Z.of_nat (valued df (month d) (day d) AvgTemp))
            * 100
    /\ (below + k + ties v (Gemini.history_df df d)
        = valued df (month d) (day d) AvgTemp + 1)%nat
    /\ (1 <= ties v (Gemini.history_df df d))%nat
    /\ p <= inject_Z (Z.of_nat (valued df (month d) (day d) AvgTemp - k))
            / inject_Z (Z.of_nat (valued df (month d) (day d) AvgTemp))
            * 100.
Proof.
  intros Hi Hv.
  change (Gemini.history_df df d)
    with (Claude.same_day_data df (month d) (day d)) in *.
  set (rows := Claude.same_day_data df (month d) (day d)) in *.
  assert (Hr : In r rows) by (apply nth_error_In with i; exact Hi).
  set (temps := dropna (map (column AvgTemp) rows)).
  assert (Hn : (0 < List.length temps)%nat).
  { apply dropna_nonempty with v. rewrite <- Hv.
    apply (in_map (column AvgTemp)). exact Hr. }
  pose proof (three_way_count v temps) as H3.
  pose proof (ties_own v rows r Hr Hv) as Hties.
  assert (Eabove : List.length (filter (Qlt_bool v) temps)
                   = List.length (filter (value_above AvgTemp v) rows))
    by (apply above_rows).
  assert (Eties : List.length (filter (fun t => Qeq_bool t v) temps)
                  = ties v rows)
    by (symmetry; apply ties_values).
  assert (Evalued : valued df (month d) (day d) AvgTemp = List.length temps)
    by (apply valued_length).
  exists (inject_Z (Z.of_nat (count_lt temps (Fin v)))
          / inject_Z (Z.of_nat (List.length temps)) * 100),
         (1 + List.length (filter (value_above AvgTemp v) rows))%nat,
         (count_lt temps (Fin v)).
  split; [apply calculate_percentile_Fin; exact Hn|].
  split.
  { rewrite (rank_nth _ i (Some v)), (rank_value rows r v Hr Hv);
      [reflexivity|].
    rewrite nth_error_map, Hi. simpl. rewrite Hv. reflexivity. }
  rewrite Evalued.
  assert (Ecount : count_lt temps (Fin v)
                   = List.length (filter (fun t => Qlt_bool t v) temps))
    by reflexivity.
  split; [reflexivity|].
  split; [lia|]. split; [exact Hties|].
  apply percent_mono; [lia | exact Hn].
Qed.

Lemma percentile_and_rank_agree_witness :
  exists p k below,
    Claude.calculate_percentile Samples.ties_df 11 13 (Fin (5 # 1)) AvgTemp
    = Some (Fin p)
    /\ nth_error
         (Gemini.rank
            (map avg_temp
                 (Gemini.history_df Samples.ties_df
                                    (mkTimestamp 2003 11 13)))) 0
       = Some (of_nat k)
    /\ p == inject_Z (Z.of_nat below)
            / inject_Z (Z.of_nat (valued Samples.ties_df 11 13 AvgTemp))
            * 100
    /\ (below + k
        + ties (5 # 1)
               (Gemini.history_df Samples.ties_df (mkTimestamp 2003 11 13))
        = valued Samples.ties_df 11 13 AvgTemp + 1)%nat
    /\ (1 <= ties (5 # 1)
                  (Gemini.history_df Samples.ties_df
                                     (mkTimestamp 2003 11 13)))%nat
    /\ p <= inject_Z (Z.of_nat (valued Samples.ties_df 11 13 AvgTemp - k))
            / inject_Z (Z.of_nat (valued Samples.ties_df 11 13 AvgTemp))
            * 100.
Proof.
  apply (percentile_and_rank_agree Samples.ties_df (mkTimestamp 2003 11 13)
           0 (Samples.row 2001 11 13 (5 # 1) (1 # 1) (8 # 1)) (5 # 1));
    reflexivity.
Defined.

(** ** The exam-day tables of the two dashboards *)

Lemma claude_loop_flat (calendar : Calendar) (df : DataFrame) :
  forall acc out,
    Claude.suneung_loop calendar df acc = Some out ->
    out = acc ++ flat_map (entries_of df) calendar.
Proof.
  induction calendar as [|[y s] rest IH]; intros acc out Hrun.
  - simpl in Hrun. injection Hrun as <-. simpl. rewrite app_nil_r.
    reflexivity.
  - cbn [Claude.suneung_loop] in Hrun. cbn [flat_map].
    unfold entries_of at 1. cbn [fst snd].
    destruct (to_datetime s) as [d|]; [|discriminate].
    destruct (filter (fun r => Timestamp_eqb (date r) d) df) as [|row rows].
    + apply (IH _ _ Hrun).
    + rewrite (IH _ _ Hrun), <- app_assoc. reflexivity.
Qed.

Lemma gemini_loop_flat (calendar : Calendar) (df : DataFrame) :
  forall acc,
    GeminiTab.suneung_loop calendar df acc
    = acc ++ flat_map (GeminiTab.rows_of df) calendar.
Proof.
  induction calendar as [|item rest IH]; intros acc.
  - simpl. rewrite app_nil_r. reflexivity.
  - cbn [GeminiTab.suneung_loop flat_map]. rewrite IH, <- app_assoc.
    reflexivity.
Qed.

Lemma rows_of_entries_of (df : DataFrame) (item : Z * string) :
  GeminiTab.rows_of df item = map exam_day_of (entries_of df item).
Proof.
  unfold GeminiTab.rows_of, entries_of.
  destruct (to_datetime (snd item)) as [d|]; [|reflexivity].
  destruct (filter (fun r => Timestamp_eqb (date r) d) df); reflexivity.
Qed.

Lemma flat_map_rows_of (df : DataFrame) (calendar : Calendar) :
  flat_map (GeminiTab.rows_of df) calendar
  = map exam_day_of (flat_map (entries_of df) calendar).
Proof.
  induction calendar as [|item rest IH]; [reflexivity|].
  cbn [flat_map]. rewrite map_app, IH, rows_of_entries_of. reflexivity.
Qed.

(** X17.  Given the same calendar and table, the exam-day table of the
    first dashboard is the exam-day table of the second with the derived
    fields dropped: the same items in the same order with the same year
    label, date string and three temperatures. *)
Theorem exam_day_tables_agree
    (calendar : Calendar) (df : DataFrame) (out : list Claude.Entry) :
  Claude.suneung_data calendar df = Some out ->
  GeminiTab.suneung_data calendar df = map exam_day_of out.
Proof.
  intros Hrun. unfold GeminiTab.suneung_data.
  rewrite gemini_loop_flat. apply claude_loop_flat in Hrun.
  cbn [app] in *. subst out. apply flat_map_rows_of.
Qed.

Lemma exam_day_tables_agree_witness :
  exists out,
    Claude.suneung_data Samples.short_calendar Samples.nov13_df = Some out
    /\ GeminiTab.suneung_data Samples.short_calendar Samples.nov13_df
       = map exam_day_of out.
Proof.
  eexists. split; [vm_compute; reflexivity|].
  apply (exam_day_tables_agree Samples.short_calendar Samples.nov13_df).
  vm_compute. reflexivity.
Defined.

(** Every item of the first dashboard's calendar is in the second
    dashboard's calendar under the next year's label. *)
Lemma calendar_shift (y : Z) (s : string) :
  In (y, s) Gemini.suneung_dates -> In ((y + 1)%Z, s) Claude.SUNEUNG_DATES.
Proof.
  assert (H : forallb
                (fun item =>
                   existsb (fun c => (fst c =? fst item + 1)%Z
                                     && String.eqb (snd c) (snd item))
                           Claude.SUNEUNG_DATES)
                Gemini.suneung_dates = true)
    by (vm_compute; reflexivity).
  rewrite forallb_forall in H. intros Hin. specialize (H _ Hin).
  apply existsb_exists in H. destruct H as [[k v] [Hc Hkv]].
  cbn [fst snd] in Hkv. apply andb_true_iff in Hkv.
  destruct Hkv as [Hk Hv]. apply Z.eqb_eq in Hk. apply String.eqb_eq in Hv.
  subst. exact Hc.
Qed.

(** X18.  Whatever the table, every exam day the first dashboard lists
    from its calendar is listed by the second dashboard from its calendar
    too, with the same date and the same three temperatures, under the
    label of the following year. *)
Theorem exam_days_shifted_by_one_label (df : DataFrame) :
  exists out,
    Claude.suneung_data Claude.SUNEUNG_DATES df = Some out
    /\ forall g,
         In g (GeminiTab.suneung_data Gemini.suneung_dates df) ->
         exists e,
           In e out
           /\ Claude.e_year e = (GeminiTab.exam_year g + 1)%Z
           /\ Claude.exam_date e = GeminiTab.exam_date g
           /\ Claude.e_avg_temp e = GeminiTab.exam_avg g
           /\ Claude.e_min_temp e = GeminiTab.exam_min g
           /\ Claude.e_max_temp e = GeminiTab.exam_max g.
Proof.
  destruct (suneung_loop_spec Claude.SUNEUNG_DATES df
              SUNEUNG_DATES_well_formed []) as [out [Hout _]].
  cbn [app] in Hout. exists out. split; [exact Hout|].
  apply claude_loop_flat in Hout. cbn [app] in Hout. subst out.
  intros g Hg. unfold GeminiTab.suneung_data in Hg.
  rewrite gemini_loop_flat in Hg. cbn [app] in Hg.
  apply in_flat_map in Hg. destruct Hg as [[y s] [Hitem Hg]].
  apply calendar_shift in Hitem.
  unfold GeminiTab.rows_of in Hg. cbn [fst snd] in Hg.
  destruct (to_datetime s) as [d|] eqn:Ed; [|destruct Hg].
  destruct (filter (fun r => Timestamp_eqb (date r) d) df)
    as [|row rows] eqn:Ef; [destruct Hg|].
  destruct Hg as [<-|[]].
  exists (Claude.make_entry df (y + 1) s d row). split.
  - apply in_flat_map. exists ((y + 1)%Z, s). split; [exact Hitem|].
    unfold entries_of. cbn [fst snd]. rewrite Ed, Ef. left. reflexivity.
  - repeat split.
Qed.

(** ** Descriptions along the order of values *)

Ltac band_split q :=
  destruct (Qle_bool q 5) eqn:?;
  [|destruct (Qle_bool q 15) eqn:?;
    [|destruct (Qle_bool q 30) eqn:?;
      [|destruct (Qle_bool q 70) eqn:?;
        [|destruct (Qle_bool q 85) eqn:?;
          [|destruct (Qle_bool q 95) eqn:?]]]]];
  repeat match goal with
         | H : Qle_bool _ _ = true |- _ => apply Qle_bool_iff in H
         | H : Qle_bool _ _ = false |- _ => apply Qle_bool_false_iff in H
         end.

Lemma description_monotone (p q : Q) :
  p <= q ->
  exists i j,
    Claude.get_temperature_description (Fin p) = band i
    /\ Claude.get_temperature_description (Fin q) = band j
    /\ (i <= j)%nat /\ (j <= 6)%nat.
Proof.
  intros Hpq. cbv [band bands nth].
  unfold Claude.get_temperature_description, le.
  band_split p; band_split q;
    first [ exfalso; lra
          | exists 0%nat, 0%nat;
            split; [reflexivity|]; split; [reflexivity|]; split; lia
          | exists 0%nat, 1%nat;
            split; [reflexivity|]; split; [reflexivity|]; split; lia
          | exists 0%nat, 2%nat;
            split; [reflexivity|]; split; [reflexivity|]; split; lia
          | exists 0%nat, 3%nat;
            split; [reflexivity|]; split; [reflexivity|]; split; lia
          | exists 0%nat, 4%nat;
            split; [reflexivity|]; split; [reflexivity|]; split; lia
          | exists 0%nat, 5%nat;
            split; [reflexivity|]; split; [reflexivity|]; split; lia
          | exists 0%nat, 6%nat;
            split; [reflexivity|]; split; [reflexivity|]; split; lia
          | exists 1%nat, 1%nat;
            split; [reflexivity|]; split; [reflexivity|]; split; lia
          | exists 1%nat, 2%nat;
            split; [reflexivity|]; split; [reflexivity|]; split; lia
          | exists 1%nat, 3%nat;
            split; [reflexivity|]; split; [reflexivity|]; split; lia
          | exists 1%nat, 4%nat;
            split; [reflexivity|]; split; [reflexivity|]; split; lia
          | exists 1%nat, 5%nat;
            split; [reflexivity|]; split; [reflexivity|]; split; lia
          | exists 1%nat, 6%nat;
            split; [reflexivity|]; split; [reflexivity|]; split; lia
          | exists 2%nat, 2%nat;
            split; [reflexivity|]; split; [reflexivity|]; split; lia
          | exists 2%nat, 3%nat;
            split; [reflexivity|]; split; [reflexivity|]; split; lia
          | exists 2%nat, 4%nat;
            split; [reflexivity|]; split; [reflexivity|]; split; lia
          | exists 2%nat, 5%nat;
            split; [reflexivity|]; split; [reflexivity|]; split; lia
          | exists 2%nat, 6%nat;
            split; [reflexivity|]; split; [reflexivity|]; split; lia
          | exists 3%nat, 3%nat;
            split; [reflexivity|]; split; [reflexivity|]; split; lia
          | exists 3%nat, 4%nat;
            split; [reflexivity|]; split; [reflexivity|]; split; lia
          | exists 3%nat, 5%nat;
            split; [reflexivity|]; split; [reflexivity|]; split; lia
          | exists 3%nat, 6%nat;
            split; [reflexivity|]; split; [reflexivity|]; split; lia
          | exists 4%nat, 4%nat;
            split; [reflexivity|]; split; [reflexivity|]; split; lia
          | exists 4%nat, 5%nat;
            split; [reflexivity|]; split; [reflexivity|]; split; lia
          | exists 4%nat, 6%nat;
            split; [reflexivity|]; split; [reflexivity|]; split; lia
          | exists 5%nat, 5%nat;
            split; [reflexivity|]; split; [reflexivity|]; split; lia
          | exists 5%nat, 6%nat;
            split; [reflexivity|]; split; [reflexivity|]; split; lia
          | exists 6%nat, 6%nat;
            split; [reflexivity|]; split; [reflexivity|]; split; lia ].
Qed.

(** X19.  On a month and day with a value in the queried column, a higher
    query value is never described by a colder band: for [v1 <= v2] the
    descriptions of the two percentiles are bands [i] and [j] of the seven
    with [i <= j]. *)
Theorem warmer_value_never_colder_band
    (df : DataFrame) (month day : Z) (t : temp_type) (v1 v2 : float) :
  (0 < valued df month day t)%nat ->
  le v1 v2 = true ->
  exists p1 p2 i j,
    Claude.calculate_percentile df month day v1 t = Some p1
    /\ Claude.calculate_percentile df month day v2 t = Some p2
    /\ Claude.get_temperature_description p1 = band i
    /\ Claude.get_temperature_description p2 = band j
    /\ (i <= j)%nat /\ (j <= 6)%nat.
Proof.
  intros Hn Hle. rewrite valued_length in Hn.
  pose proof (count_lt_mono
                (dropna (map (column t) (Claude.same_day_data df month day)))
                v1 v2 Hle) as Hc.
  destruct (description_monotone _ _ (percent_mono _ _ _ Hc Hn))
    as [i [j H]].
  do 2 eexists. exists i, j.
  split; [apply calculate_percentile_Fin; exact Hn|].
  split; [apply calculate_percentile_Fin; exact Hn|].
  exact H.
Qed.

Lemma warmer_value_never_colder_band_witness :
  exists p1 p2 i j,
    Claude.calculate_percentile Samples.nov13_df 11 13 (Fin (-1 # 1)) AvgTemp
    = Some p1
    /\ Claude.calculate_percentile Samples.nov13_df 11 13 (Fin (3 # 1))
                                   AvgTemp
       = Some p2
    /\ Claude.get_temperature_description p1 = band i
    /\ Claude.get_temperature_description p2 = band j
    /\ (i <= j)%nat /\ (j <= 6)%nat.
Proof.
  apply warmer_value_never_colder_band.
  - vm_compute. lia.
  - reflexivity.
Defined.

(** X20.  When rows match the month and day but none has a value in the
    queried column, the percentile is NaN whatever the query, and NaN fails
    every comparison of the classifier: the day is described by the
    hottest band. *)
Theorem all_missing_reads_hottest
    (df : DataFrame) (month day : Z) (t : temp_type) (v : float) :
  Claude.same_day_data df month day <> [] ->
  valued df month day t = 0%nat ->
  exists p,
    Claude.calculate_percentile df month day v t = Some p
    /\ p = NaN
    /\ Claude.get_temperature_description p = band 6.
Proof.
  intros Hne Hn. rewrite valued_length in Hn.
  exists NaN. split; [|split; reflexivity].
  rewrite (calculate_percentile_unfold _ _ _ _ _ Hne).
  destruct (dropna (map (column t) (Claude.same_day_data df month day)));
    [reflexivity | discriminate].
Qed.

Lemma all_missing_reads_hottest_witness :
  exists p,
    Claude.calculate_percentile Samples.missing_avg_df 11 13 (Fin 1) AvgTemp
    = Some p
    /\ p = NaN
    /\ Claude.get_temperature_description p = band 6.
Proof.
  apply all_missing_reads_hottest; [discriminate | reflexivity].
Defined.

(** ** The aggregated tables of the exploration tab *)

Lemma insert_key_In (k y : Z) (keys : list Z) :
  In y (ClaudeExplore.insert_key k keys) <-> y = k \/ In y keys.
Proof.
  induction keys as [|x rest IH]; cbn [ClaudeExplore.insert_key].
  - simpl. intuition.
  - destruct (k <? x)%Z eqn:E1; [simpl; intuition|].
    destruct (k =? x)%Z eqn:E2.
    + apply Z.eqb_eq in E2. subst. simpl. intuition.
    + simpl. rewrite IH. intuition.
Qed.

Lemma insert_key_sorted (k : Z) (keys : list Z) :
  StronglySorted Z.lt keys ->
  StronglySorted Z.lt (ClaudeExplore.insert_key k keys).
Proof.
  induction keys as [|x rest IH]; intros Hs; cbn [ClaudeExplore.insert_key].
  - repeat constructor.
  - apply StronglySorted_inv in Hs. destruct Hs as [Hrest Hall].
    destruct (k <? x)%Z eqn:E1.
    + apply Z.ltb_lt in E1. constructor; [constructor; assumption|].
      constructor; [exact E1|]. rewrite Forall_forall in *.
      intros y Hy. specialize (Hall y Hy). lia.
    + apply Z.ltb_ge in E1. destruct (k =? x)%Z eqn:E2.
      * constructor; assumption.
      * apply Z.eqb_neq in E2. constructor; [apply IH; exact Hrest|].
        rewrite Forall_forall in *. intros y Hy.
        apply insert_key_In in Hy. destruct Hy as [->|Hy];
          [lia | apply Hall; exact Hy].
Qed.

Lemma group_keys_spec (key : Row -> Z) (rows : DataFrame) :
  StronglySorted Z.lt (ClaudeExplore.group_keys key rows)
  /\ forall k, In k (ClaudeExplore.group_keys key rows)
               <-> exists r, In r rows /\ key r = k.
Proof.
  unfold ClaudeExplore.group_keys.
  induction rows as [|r rows [IHs IHin]]; cbn [map fold_right].
  - split; [constructor|]. intros k. split; [intros [] | intros [r [[] _]]].
  - split; [apply insert_key_sorted; exact IHs|].
    intros k. rewrite insert_key_In, IHin. split.
    + intros [->|[r' [Hr' Hk]]]; [exists r | exists r']; simpl; auto.
    + intros [r' [[<-|Hr'] Hk]]; [left; auto | right; eauto].
Qed.

Lemma groupby_mean_keys (key : Row -> Z) (rows : DataFrame) :
  map ClaudeExplore.g_key (ClaudeExplore.groupby_mean key rows)
  = ClaudeExplore.group_keys key rows.
Proof.
  unfold ClaudeExplore.groupby_mean. rewrite map_map. cbn. apply map_id.
Qed.

Lemma filtered_df_In (df : DataFrame) (year_range : Z * Z) (r : Row) :
  In r (ClaudeExplore.filtered_df df year_range)
  <-> In r df
      /\ (fst year_range <= year (date r) <= snd year_range)%Z.
Proof.
  unfold ClaudeExplore.filtered_df.
  rewrite filter_In, andb_true_iff, !Z.leb_le. reflexivity.
Qed.

(** X21.  The table of yearly means has one row per year that occurs in
    the table within the selected year range, in strictly ascending order
    of year, and no other row.  The table of monthly means likewise has
    one row per month that occurs among the rows in the range, in strictly
    ascending order of month. *)
Theorem aggregated_tables_spec (df : DataFrame) (year_range : Z * Z) :
  StronglySorted Z.lt
    (map ClaudeExplore.g_key (ClaudeExplore.yearly_avg df year_range))
  /\ (forall y,
        In y (map ClaudeExplore.g_key
                  (ClaudeExplore.yearly_avg df year_range))
        <-> (exists r, In r df /\ year (date r) = y)
            /\ (fst year_range <= y <= snd year_range)%Z)
  /\ StronglySorted Z.lt
       (map ClaudeExplore.g_key (ClaudeExplore.monthly_avg df year_range))
  /\ (forall m,
        In m (map ClaudeExplore.g_key
                  (ClaudeExplore.monthly_avg df year_range))
        <-> exists r, In r df /\ month (date r) = m
                      /\ (fst year_range <= year (date r)
                          <= snd year_range)%Z).
Proof.
  unfold ClaudeExplore.yearly_avg, ClaudeExplore.monthly_avg.
  rewrite !groupby_mean_keys.
  destruct (group_keys_spec (fun r => year (date r))
              (ClaudeExplore.filtered_df df year_range)) as [Hs1 Hin1].
  destruct (group_keys_spec (fun r => month (date r))
              (ClaudeExplore.filtered_df df year_range)) as [Hs2 Hin2].
  split; [exact Hs1|]. split.
  { intros y. rewrite Hin1. split.
    - intros [r [Hr Hy]]. apply filtered_df_In in Hr.
      destruct Hr as [Hr Hrange]. subst y. split; [eauto | exact Hrange].
    - intros [[r [Hr Hy]] Hrange]. exists r. split; [|exact Hy].
      apply filtered_df_In. subst y. auto. }
  split; [exact Hs2|].
  intros m. rewrite Hin2. split.
  - intros [r [Hr Hm]]. apply filtered_df_In in Hr.
    destruct Hr as [Hr Hrange]. exists r. auto.
  - intros [r [Hr [Hm Hrange]]]. exists r. split; [|exact Hm].
    apply filtered_df_In. auto.
Qed.

(** The sample table grouped by year: the rows of 2001 and 2005 fall
    into one group each, and a range that ends in 2003 drops the rest. *)
Example yearly_avg_sample :
  map ClaudeExplore.g_key (ClaudeExplore.yearly_avg Samples.nov13_df
                                                     (2001, 2005)%Z)
  = [2001; 2002; 2003; 2004; 2005]%Z
  /\ map ClaudeExplore.g_key (ClaudeExplore.yearly_avg Samples.nov13_df
                                                        (2002, 2003)%Z)
     = [2002; 2003]%Z
  /\ map ClaudeExplore.g_key (ClaudeExplore.monthly_avg Samples.nov13_df
                                                         (2001, 2005)%Z)
     = [11; 12]%Z.
Proof. repeat split; vm_compute; reflexivity. Qed.
